(** * asyncio_stripe: the request core of [asyncio_stripe/stripe.py]

    A shallow embedding of [StripeError.__init__], [Client._req], the
    endpoint methods built on it and [convert_json_response], with the
    properties of the parameter encoder, of the response classification and
    of the response normalisation.

    Python values are a tagged union; a [dict] is an association list in
    insertion order (keys are unique in every dict Python builds, and every
    operation below keeps them so); raised exceptions are values of [exn];
    the mapping object that [_req] mutates lives in a store of objects. *)

From Stdlib Require Import ZArith String Ascii List DecimalString SpecFloat.
From stdpp Require Import base tactics option list strings gmap.

Local Open Scope string_scope.
Local Open Scope Z_scope.
Local Open Scope list_scope.

(** ** Python values *)

(** [VFloat] carries the IEEE value; [VBytes] is the payload of [r.read()].
    Strings are sequences of 8-bit characters. *)
#[warnings="-register-all"]
Inductive value : Type :=
  | VNone
  | VBool (b : bool)
  | VInt (n : Z)
  | VFloat (f : spec_float)
  | VStr (s : string)
  | VBytes (s : string)
  | VList (l : list value)
  | VDict (d : list (string * value)).

Abbreviation dict := (list (string * value)).

(** Induction that reaches the elements of lists and the values of dicts. *)
Section value_induction.
Variable P : value → Prop.
Hypothesis HNone : P VNone.
Hypothesis HBool : ∀ b, P (VBool b).
Hypothesis HInt : ∀ n, P (VInt n).
Hypothesis HFloat : ∀ f, P (VFloat f).
Hypothesis HStr : ∀ s, P (VStr s).
Hypothesis HBytes : ∀ s, P (VBytes s).
Hypothesis HList : ∀ l, Forall P l → P (VList l).
Hypothesis HDict : ∀ d : dict, Forall (λ kv, P kv.2) d → P (VDict d).

Fixpoint value_ind' (v : value) : P v :=
  match v with
  | VNone => HNone
  | VBool b => HBool b
  | VInt n => HInt n
  | VFloat f => HFloat f
  | VStr s => HStr s
  | VBytes s => HBytes s
  | VList l =>
      HList l ((fix go (l : list value) : Forall P l :=
                  match l with
                  | [] => Forall_nil_2 P
                  | x :: l' => Forall_cons_2 P x l' (value_ind' x) (go l')
                  end) l)
  | VDict d =>
      HDict d ((fix go (d : dict) : Forall (λ kv, P kv.2) d :=
                  match d with
                  | [] => Forall_nil_2 _
                  | kv :: d' => Forall_cons_2 _ kv d' (value_ind' kv.2) (go d')
                  end) d)
  end.
End value_induction.

(** [isinstance(v, dict)], [isinstance(v, bool)], [isinstance(v, list)]. *)
Definition is_dict (v : value) : bool :=
  match v with VDict _ => true | _ => false end.
Definition is_bool (v : value) : bool :=
  match v with VBool _ => true | _ => false end.
Definition is_list (v : value) : bool :=
  match v with VList _ => true | _ => false end.

(** Truth value of an object, as [if v:] and [not v] test it. *)
Definition py_truthy (v : value) : bool :=
  match v with
  | VNone => false
  | VBool b => b
  | VInt n => negb (n =? 0)
  | VFloat f => match f with S754_zero _ => false | _ => true end
  | VStr s => negb (String.eqb s "")
  | VBytes s => negb (String.eqb s "")
  | VList l => match l with [] => false | _ => true end
  | VDict d => match d with [] => false | _ => true end
  end.

(** [v == s] for a [str] literal [s]: only an equal [str] compares equal. *)
Definition py_eq_str (v : value) (s : string) : bool :=
  match v with VStr s' => String.eqb s' s | _ => false end.

(** ** Exceptions and results *)

(** The attributes [StripeError.__init__] sets ([None] is [VNone]), and the
    message it hands to [Exception.__init__]. *)
Record stripe_error := mk_stripe_error {
  se_type : value;
  se_charge : value;
  se_message : value;
  se_code : value;
  se_decline_code : value;
  se_param : value;
  se_http_code : Z;
  se_summary : string
}.

Inductive exn : Type :=
  | StripeError (e : stripe_error)
  | ParseError (msg : string)
  | DeletionError (msg : string)
  | AttributeError (attr : string)
  | KeyError (key : string)
  | TypeError (msg : string)
  | ValueError (msg : string)
  | SystemError (msg : string)
  | TransportError (msg : string).

Inductive result (A : Type) : Type :=
  | Ok (a : A)
  | Raise (e : exn).
Arguments Ok {A} a.
Arguments Raise {A} e.

Global Instance result_ret : MRet result := λ A a, Ok a.
Global Instance result_bind : MBind result := λ A B f m,
  match m with Ok a => f a | Raise e => Raise e end.
Global Instance result_fmap : FMap result := λ A B f m,
  match m with Ok a => Ok (f a) | Raise e => Raise e end.

(** [[f(x) for x in l]] with a fallible [f]: left to right, the first
    exception ends the comprehension. *)
Fixpoint map_result {A B} (f : A → result B) (l : list A) : result (list B) :=
  match l with
  | [] => Ok []
  | x :: l' => y ← f x; ys ← map_result f l'; Ok (y :: ys)
  end.

(** ** Strings *)

Definition dquote : string := String "034" "".

Definition upper_char (c : ascii) : ascii :=
  let n := nat_of_ascii c in
  if ((97 <=? n) && (n <=? 122))%nat then ascii_of_nat (n - 32) else c.
Definition lower_char (c : ascii) : ascii :=
  let n := nat_of_ascii c in
  if ((65 <=? n) && (n <=? 90))%nat then ascii_of_nat (n + 32) else c.

Fixpoint string_map (f : ascii → ascii) (s : string) : string :=
  match s with
  | EmptyString => EmptyString
  | String c s' => String (f c) (string_map f s')
  end.

(** [s.upper()], [s.lower()] on ASCII letters. *)
Definition py_upper : string → string := string_map upper_char.
Definition py_lower : string → string := string_map lower_char.

(** [s.lstrip(c)] for a single character [c]. *)
Fixpoint py_lstrip (c : ascii) (s : string) : string :=
  match s with
  | String c' s' => if Ascii.eqb c' c then py_lstrip c s' else s
  | EmptyString => EmptyString
  end.

(** [s.startswith(p)]. *)
Definition py_startswith (s p : string) : bool := String.prefix p s.

(** [p in s] for two [str]. *)
Fixpoint py_substring (p s : string) : bool :=
  String.prefix p s ||
  match s with
  | EmptyString => false
  | String _ s' => py_substring p s'
  end.

Fixpoint string_chars (s : string) : list ascii :=
  match s with
  | EmptyString => []
  | String c s' => c :: string_chars s'
  end.

(** ** Dictionaries *)

(** [d.get(k)] as an option, [k in d], [d.get(k, dflt)]. *)
Fixpoint dict_get (d : dict) (k : string) : option value :=
  match d with
  | [] => None
  | (k', v) :: d' => if String.eqb k' k then Some v else dict_get d' k
  end.

Definition dict_mem (d : dict) (k : string) : bool :=
  match dict_get d k with Some _ => true | None => false end.

Definition dict_get_default (d : dict) (k : string) (dflt : value) : value :=
  match dict_get d k with Some v => v | None => dflt end.

(** [d[k] = v]: an existing key keeps its position, a new key goes last. *)
Fixpoint dict_set (d : dict) (k : string) (v : value) : dict :=
  match d with
  | [] => [(k, v)]
  | (k', v') :: d' =>
      if String.eqb k' k then (k', v) :: d' else (k', v') :: dict_set d' k v
  end.

(** The entries left by [del d[k]]. *)
Fixpoint dict_remove (d : dict) (k : string) : dict :=
  match d with
  | [] => []
  | (k', v') :: d' =>
      if String.eqb k' k then dict_remove d' k else (k', v') :: dict_remove d' k
  end.

(** [d.update(e)]. *)
Definition dict_update (d e : dict) : dict :=
  fold_left (λ acc kv, dict_set acc kv.1 kv.2) e d.

Definition dict_keys (d : dict) : list string := map fst d.

(** ** Computations that mutate an object and may raise *)

(** A computation over a state [S]: it returns or raises, and leaves the
    state as it was at that point (an exception undoes nothing). *)
Definition SE (S A : Type) : Type := S → result A * S.

Global Instance se_ret {S} : MRet (SE S) := λ A a s, (Ok a, s).
Global Instance se_bind {S} : MBind (SE S) := λ A B f m s,
  match m s with
  | (Ok a, s') => f a s'
  | (Raise e, s') => (Raise e, s')
  end.

Definition se_lift {S A} (r : result A) : SE S A := λ s, (r, s).

(** [for x in l: body(x)]. *)
Fixpoint for_each {S A} (l : list A) (body : A → SE S unit) : SE S unit :=
  match l with
  | [] => mret ()
  | x :: l' => body x;; for_each l' body
  end.

(** ** The parameter encoder (lines 90-100 of [_req]) *)

(** The state is the mapping object bound to [params]. *)
Definition getitem (k : string) : SE dict value := λ d,
  match dict_get d k with
  | Some v => (Ok v, d)
  | None => (Raise (KeyError k), d)
  end.

Definition setitem (k : string) (v : value) : SE dict unit := λ d,
  (Ok (), dict_set d k v).

Definition delitem (k : string) : SE dict unit := λ d,
  if dict_mem d k then (Ok (), dict_remove d k) else (Raise (KeyError k), d).

(** [o.items()]. *)
Definition py_items (o : value) : result dict :=
  match o with
  | VDict d => Ok d
  | _ => Raise (AttributeError "items")
  end.

(** ['%s[%s]' % (key, subkey)] for two [str]. *)
Definition nested_name (key subkey : string) : string :=
  key +:+ "[" +:+ subkey +:+ "]".

(** [[k for k, v in params.items() if isinstance(v, dict)]]. *)
Definition nested_keys (d : dict) : list string :=
  map fst (List.filter (λ kv, is_dict kv.2) d).

(** One round of the outer loop of lines 91-94. *)
Definition flatten_key (key : string) : SE dict unit :=
  inner ← getitem key;
  items ← se_lift (py_items inner);
  for_each items (λ kv, setitem (nested_name key kv.1) kv.2);;
  delitem key.

Definition flatten : SE dict unit := λ d,
  for_each (nested_keys d) flatten_key d.

Definition str_of_bool (b : bool) : string := if b then "True" else "False".

(** [{k: str(v).lower() for k, v in params.items() if isinstance(v, bool)}]. *)
Definition bool_strings (d : dict) : dict :=
  omap (λ kv, match kv.2 with
              | VBool b => Some (kv.1, VStr (py_lower (str_of_bool b)))
              | _ => None
              end) d.

(** Lines 97-100. *)
Definition stringify_bools : SE dict unit := λ d,
  (Ok (), dict_update d (bool_strings d)).

Definition encode_params : SE dict unit :=
  flatten;; stringify_bools.

(** ** Response normalisation: [convert_json_response] *)

(** What [for r in o] yields: the elements of a list, the keys of a dict,
    the characters of a [str], the bytes of a [bytes]. *)
Definition py_iter (o : value) : result (list value) :=
  match o with
  | VList l => Ok l
  | VDict d => Ok (map (λ kv, VStr kv.1) d)
  | VStr s => Ok (map (λ c, VStr (String c "")) (string_chars s))
  | VBytes s => Ok (map (λ c, VInt (Z.of_nat (nat_of_ascii c))) (string_chars s))
  | _ => Raise (TypeError "object is not iterable")
  end.

(** [resp.get('object', '') == 'list'] for a dict [resp]. *)
Definition is_list_envelope (d : dict) : bool :=
  py_eq_str (dict_get_default d "object" (VStr "")) "list".

(** The recursion is on the structure of the value, so the ['data'] entry
    is found by a walk over the entries: a list under ['data'] is
    normalised element by element, which is the list branch on it; what
    any other iterable yields ([str], [int]) is returned as it is by the
    last line.  [convert_json_response_dict] below restates the dict branch
    as lines 420-421 read. *)
Fixpoint convert_json_response (resp : value) : result value :=
  match resp with
  | VList l =>
      VList <$> (fix each (l : list value) : result (list value) :=
                   match l with
                   | [] => Ok []
                   | r :: l' =>
                       y ← convert_json_response r; ys ← each l'; Ok (y :: ys)
                   end) l
  | VDict d =>
      if is_list_envelope d then
        (fix data (d : dict) : result value :=
           match d with
           | [] => Raise (KeyError "data")
           | (k, v) :: d' =>
               if String.eqb k "data" then
                 match v with
                 | VList _ => convert_json_response v
                 | _ => VList <$> py_iter v
                 end
               else data d'
           end) d
      else Ok resp
  | _ => Ok resp
  end.

(** [resp['data']]. *)
Definition py_getitem (d : dict) (k : string) : result value :=
  match dict_get d k with
  | Some v => Ok v
  | None => Raise (KeyError k)
  end.

(** ['object' not in body] is [not py_contains body "object"]: key
    membership in a dict, an equal element in a list, a substring of a
    [str]; [bytes] and the scalars raise [TypeError]. *)
Definition py_contains (o : value) (s : string) : result bool :=
  match o with
  | VDict d => Ok (dict_mem d s)
  | VList l => Ok (existsb (λ x, py_eq_str x s) l)
  | VStr t => Ok (py_substring s t)
  | VBytes _ => Raise (TypeError "a bytes-like object is required, not 'str'")
  | _ => Raise (TypeError "argument is not iterable")
  end.

(** Every mapping tagged [object == 'list'], at any depth, has a ['data']
    entry. *)
Fixpoint envelopes_have_data (v : value) : bool :=
  match v with
  | VList l =>
      (fix all (l : list value) : bool :=
         match l with
         | [] => true
         | x :: l' => envelopes_have_data x && all l'
         end) l
  | VDict d =>
      implb (is_list_envelope d) (dict_mem d "data") &&
      (fix all (d : dict) : bool :=
         match d with
         | [] => true
         | kv :: d' => envelopes_have_data kv.2 && all d'
         end) d
  | _ => true
  end.

(** A value the normalisation has nothing to do on: neither a list nor a
    list envelope. *)
Definition plain (v : value) : bool :=
  match v with
  | VList _ => false
  | VDict d => negb (is_list_envelope d)
  | _ => true
  end.

(** ** Text of a value, and [%]-formatting *)

Section with_repr.

(** [repr] of a float, of [bytes] and of a container is the interpreter's;
    everything below holds for whatever text it produces. *)
Variable py_repr : value → string.

(** [str(v)], which is what a [%s] conversion inserts. *)
Definition py_str (v : value) : string :=
  match v with
  | VStr s => s
  | VNone => "None"
  | VBool b => str_of_bool b
  | VInt n => NilZero.string_of_int (Z.to_int n)
  | _ => py_repr v
  end.

(** [fmt % args] for a format whose only conversions are [%s] (and [%%]). *)
Fixpoint py_mod (fmt : string) (args : list value) : result string :=
  match fmt with
  | EmptyString =>
      match args with
      | [] => Ok EmptyString
      | _ => Raise (TypeError "not all arguments converted during string formatting")
      end
  | String "%" (String "s" rest) =>
      match args with
      | [] => Raise (TypeError "not enough arguments for format string")
      | v :: args' => r ← py_mod rest args'; Ok (py_str v +:+ r)
      end
  | String "%" (String "%" rest) =>
      r ← py_mod rest args; Ok (String "%" r)
  | String "%" _ => Raise (ValueError "unsupported format character")
  | String c rest => r ← py_mod rest args; Ok (String c r)
  end.

(** ** [StripeError.__init__] *)

(** [getattr(self, key, None)] on the instance under construction, for the
    keys [addstr] is called with: the attributes are the seven that
    [__init__] has assigned by then, and no other name among those keys is
    an attribute of an exception. *)
Definition stripe_getattr (e : stripe_error) (key : string) : value :=
  if String.eqb key "type" then se_type e
  else if String.eqb key "charge" then se_charge e
  else if String.eqb key "message" then se_message e
  else if String.eqb key "code" then se_code e
  else if String.eqb key "decline_code" then se_decline_code e
  else if String.eqb key "param" then se_param e
  else if String.eqb key "http_code" then VInt (se_http_code e)
  else VNone.

(** The local function [addstr]. *)
Definition addstr (self : stripe_error) (key fmt : string) : result string :=
  let v := stripe_getattr self key in
  if negb (match v with VNone => true | _ => false end) && py_truthy v
  then py_mod fmt [v]
  else Ok "".

(** [err.get(k, '')], which needs [err] to be a dict. *)
Definition py_get (o : value) (k : string) (dflt : value) : result value :=
  match o with
  | VDict d => Ok (dict_get_default d k dflt)
  | _ => Raise (AttributeError "get")
  end.

(** The attribute assignments of lines 10-26. *)
Definition stripe_error_fields (status : Z) (body : value) : result stripe_error :=
  let blank := mk_stripe_error VNone VNone VNone VNone VNone VNone status "" in
  match body with
  | VDict b =>
      let err := dict_get_default b "error" (VDict []) in
      if py_truthy err then
        ty ← py_get err "type" (VStr "");
        charge ← py_get err "charge" (VStr "");
        message ← py_get err "message" (VStr "");
        code ← py_get err "code" (VStr "");
        decline_code ← py_get err "decline_code" (VStr "");
        param ← py_get err "param" (VStr "");
        Ok (mk_stripe_error ty charge message code decline_code param status "")
      else Ok blank
  | _ => Ok blank
  end.

(** [StripeError(resp, body)]: the instance, or the exception that escapes
    the constructor. *)
Definition StripeError_init (status : Z) (body : value) : result stripe_error :=
  self ← stripe_error_fields status body;
  a1 ← addstr self "type" " %s:";
  a2 ← addstr self "charge" " charge: %s";
  a3 ← addstr self "message" (" message: " +:+ dquote +:+ "%s" +:+ dquote);
  a4 ← addstr self "code" " code: %s";
  a5 ← addstr self "decline" " decline: %s";
  a6 ← addstr self "param" " param: %s";
  summary ← py_mod "%s:%s%s%s%s%s%s"
            [VInt status; VStr a1; VStr a2; VStr a3; VStr a4; VStr a5; VStr a6];
  Ok (mk_stripe_error (se_type self) (se_charge self) (se_message self)
        (se_code self) (se_decline_code self) (se_param self)
        (se_http_code self) summary).

(** ** The client and [Client._req] *)

(** What [session.request] is called with, and the part of the response
    [_req] reads: the status, the [Content-Type] header if any, what
    [r.json()] gives and what [r.read()] gives. *)
Record request := mk_request {
  rq_method : string;
  rq_url : string;
  rq_params : dict;
  rq_auth : string * string;
  rq_headers : list (string * string)
}.

Record response := mk_response {
  r_status : Z;
  r_content_type : option string;
  r_json : result value;
  r_read : string
}.

(** [Client.__init__]: the session is whatever answers a request. *)
Record Client := mk_Client {
  _session : request → result response;
  _auth : string * string;
  _url : string;
  _version : string
}.

Definition DEFAULT_VERSION : string := "2017-02-14".
Definition LAST_VERSION : string := "2018-11-08".

Definition Client_init (session : request → result response) (pk version : string)
  : Client :=
  mk_Client session (pk, "") "https://api.stripe.com/v1" version.

(** The objects a caller and [_req] share: the mapping objects by
    reference, and the requests the session has been handed. *)
Definition loc := nat.

Record world := mk_world {
  heap : gmap loc dict;
  sent : list request
}.

(** [{...}]: a new mapping object. *)
Definition new_dict (d : dict) : SE world loc := λ w,
  let p := fresh (dom (heap w)) in
  (Ok p, mk_world (<[p := d]> (heap w)) (sent w)).

(** Run a computation on the object a reference denotes.  A reference
    Python holds always denotes one; [SystemError] stands for the other
    case. *)
Definition on_object {A} (p : loc) (m : SE dict A) : SE world A := λ w,
  match heap w !! p with
  | Some d => let '(r, d') := m d in (r, mk_world (<[p := d']> (heap w)) (sent w))
  | None => (Raise (SystemError "no such object"), w)
  end.

(** [await self._session.request(method, url, params=params, auth=...,
    headers=headers)]. *)
Definition session_request (self : Client) (method url : string) (params : loc)
    (headers : list (string * string)) : SE world response := λ w,
  match heap w !! params with
  | Some d =>
      let rq := mk_request method url d (_auth self) headers in
      (_session self rq, mk_world (heap w) (sent w ++ [rq]))
  | None => (Raise (SystemError "no such object"), w)
  end.

(** Lines 109-112. *)
Definition read_body (r : response) : result value :=
  if py_startswith (default "" (r_content_type r)) "application/json"
  then r_json r
  else Ok (VBytes (r_read r)).

(** Lines 114-125: what [_req] does with the response. *)
Definition handle_response (method : string) (r : response) : result value :=
  body ← read_body r;
  if negb (r_status r =? 200) then
    e ← StripeError_init (r_status r) body;
    Raise (StripeError e)
  else if String.eqb (py_upper method) "DELETE" then
    deleted ← py_get body "deleted" (VBool false);
    if negb (py_truthy deleted) then
      id ← py_get body "id" VNone;
      msg ← py_mod "Failed to delete %s" [id];
      Raise (DeletionError msg)
    else Ok VNone
  else
    has_object ← py_contains body "object";
    if negb has_object then
      msg ← py_mod ("Stripe response missing " +:+ dquote +:+ "object"
                    +:+ dquote +:+ ": %s") [body];
      Raise (ParseError msg)
    else convert_json_response body.

Definition _req (self : Client) (method page : string) (params : option loc)
  : SE world value :=
  let url := _url self +:+ "/" +:+ py_lstrip "/" page in
  let headers := [("Content-Type", "application/x-www-form-urlencoded");
                  ("Stripe-Version", _version self)] in
  params ← match params with
           | None => new_dict []
           | Some p => mret p
           end;
  on_object params encode_params;;
  r ← session_request self (py_upper method) url params headers;
  se_lift (handle_response method r).

(** ** The endpoint methods *)

(** [**kwds] arrives as a mapping object of its own, holding the keyword
    arguments of the call: [new_dict kwds]. *)
Definition create_charge (self : Client) (amount currency : value) (kwds : dict)
  : SE world value :=
  params ← new_dict (dict_update [("amount", amount); ("currency", currency)] kwds);
  _req self "post" "/charges" (Some params).

Definition retrieve_charge (self : Client) (charge_id : value) : SE world value :=
  page ← se_lift (py_mod "/charges/%s" [charge_id]);
  _req self "get" page None.

Definition update_charge (self : Client) (charge_id : value) (kwds : dict)
  : SE world value :=
  kwds ← new_dict kwds;
  page ← se_lift (py_mod "/charges/%s" [charge_id]);
  _req self "post" page (Some kwds).

Definition capture_charge (self : Client) (charge_id : value) (kwds : dict)
  : SE world value :=
  kwds ← new_dict kwds;
  page ← se_lift (py_mod "/charges/%s/capture" [charge_id]);
  _req self "post" page (Some kwds).

Definition list_charges (self : Client) (kwds : dict) : SE world value :=
  kwds ← new_dict kwds;
  _req self "get" "/charges" (Some kwds).

Definition create_customer (self : Client) (kwds : dict) : SE world value :=
  kwds ← new_dict kwds;
  _req self "post" "/customers" (Some kwds).

Definition retrieve_customer (self : Client) (customer_id : value)
  : SE world value :=
  page ← se_lift (py_mod "/customers/%s" [customer_id]);
  _req self "get" page None.

Definition update_customer (self : Client) (customer_id : value) (kwds : dict)
  : SE world value :=
  kwds ← new_dict kwds;
  page ← se_lift (py_mod "/customers/%s" [customer_id]);
  _req self "post" page (Some kwds).

Definition delete_customer (self : Client) (customer_id : value)
  : SE world value :=
  page ← se_lift (py_mod "/customers/%s" [customer_id]);
  _req self "delete" page None;;
  mret VNone.

Definition list_customers (self : Client) (kwds : dict) : SE world value :=
  kwds ← new_dict kwds;
  _req self "get" "/customers" (Some kwds).

Definition create_card (self : Client) (customer_id source metadata : value)
  : SE world value :=
  params ← new_dict [("source", source)];
  match metadata with
  | VNone => mret ()
  | _ => on_object params (setitem "metadata" metadata)
  end;;
  page ← se_lift (py_mod "/customers/%s/sources" [customer_id]);
  _req self "post" page (Some params).

Definition delete_card (self : Client) (customer_id source_id : value)
  : SE world value :=
  page ← se_lift (py_mod "/customers/%s/sources/%s" [customer_id; source_id]);
  _req self "delete" page None;;
  mret VNone.

Definition update_card (self : Client) (customer_id source_id : value)
    (kwds : dict) : SE world value :=
  kwds ← new_dict kwds;
  page ← se_lift (py_mod "/customers/%s/sources/%s" [customer_id; source_id]);
  _req self "post" page (Some kwds).

Definition create_refund (self : Client) (charge_id : value) (kwds : dict)
  : SE world value :=
  params ← new_dict [("charge", charge_id)];
  on_object params (λ d, (Ok (), dict_update d kwds));;
  _req self "post" "/refunds" (Some params).

Definition retrieve_refund (self : Client) (refund_id : value) : SE world value :=
  page ← se_lift (py_mod "/refunds/%s" [refund_id]);
  _req self "get" page None.

Definition update_refund (self : Client) (refund_id metadata : value)
  : SE world value :=
  params ← new_dict [("metadata", metadata)];
  page ← se_lift (py_mod "/refunds/%s" [refund_id]);
  _req self "post" page (Some params).

Definition list_refunds (self : Client) (kwds : dict) : SE world value :=
  kwds ← new_dict kwds;
  _req self "get" "/refunds" (Some kwds).

Definition create_source (self : Client) (kwds : dict) : SE world value :=
  kwds ← new_dict kwds;
  _req self "post" "/sources" (Some kwds).

Definition retrieve_source (self : Client) (source_id : value) : SE world value :=
  page ← se_lift (py_mod "/sources/%s" [source_id]);
  _req self "get" page None.

End with_repr.





(** ** Inputs of the examples *)

(** A stand-in for the interpreter's [repr] where an example needs one. *)
Definition opaque_repr (v : value) : string := "<repr>".

(** The body of [test_error_parsing], with a short message. *)
Definition error_body : value :=
  VDict [("error", VDict [("type", VStr "invalid_request_error");
                          ("message", VStr "msg");
                          ("param", VStr "source");
                          ("code", VStr "missing")])].

Definition json_response (status : Z) (body : value) : response :=
  mk_response status (Some "application/json") (Ok body) "".

Definition raw_response (status : Z) (content_type : string) (payload : string)
  : response :=
  mk_response status (Some content_type)
    (Raise (ValueError "Attempt to decode JSON with unexpected mimetype")) payload.

(** What [addstr] contributes for an attribute holding [v]. *)
Definition shown (py_repr : value → string) (pre : string) (v : value)
    (post : string) : string :=
  match v with
  | VNone => ""
  | _ => if py_truthy v then pre +:+ py_str py_repr v +:+ post else ""
  end.

(** ** What the encoder is expected to produce *)

(** The entries the inner loop writes for [key]. *)
Definition renamed (key : string) (inner : dict) : dict :=
  map (λ kv, (nested_name key kv.1, kv.2)) inner.

(** The entries written for the keys [ks] of [params], in the order of the
    writes. *)
Definition synth (params : dict) (ks : list string) : dict :=
  flat_map (λ j, match dict_get params j with
                 | Some (VDict inner) => renamed j inner
                 | _ => []
                 end) ks.

Definition synth_names (params : dict) : list string :=
  dict_keys (synth params (nested_keys params)).

(** The keys of the input and the names [k[a]] made from its nested
    mappings are pairwise distinct. *)
Definition collision_free (params : dict) : Prop :=
  NoDup (dict_keys params ++ synth_names params).

(** The value sent for [v]. *)
Definition conv_bool (v : value) : value :=
  match v with
  | VBool b => VStr (if b then "true" else "false")
  | _ => v
  end.

(** A string, a number or a boolean. *)
Definition is_scalar (v : value) : bool :=
  match v with
  | VBool _ | VInt _ | VFloat _ | VStr _ => true
  | _ => false
  end.

(** A scalar, or a mapping of scalars. *)
Definition one_level (v : value) : bool :=
  match v with
  | VDict inner => forallb (λ kv, is_scalar kv.2) inner
  | _ => is_scalar v
  end.

(** [v] is a scalar of [params]: a top-level value, or a value inside one
    of its nested mappings. *)
Definition source (params : dict) (v : value) : Prop :=
  is_scalar v = true ∧
  ((∃ k, (k, v) ∈ params) ∨
   (∃ k inner a, (k, VDict inner) ∈ params ∧ (a, v) ∈ inner)).

(** ** The claims on the encoder, as they are worded *)

(** The keyword arguments of the charge of [test_param_conversion], and the
    mapping [create_charge] builds from them. *)
Definition charge_kwds : dict :=
  [("k", VStr "1"); ("j", VInt 2);
   ("metadata", VDict [("md1", VStr "hi"); ("md2", VStr "other")]);
   ("tf", VBool true)].

Definition charge_params : dict :=
  dict_update [("amount", VInt 103); ("currency", VStr "usd")] charge_kwds.

(** Flattening [k] leaves every other key with its value. *)
Definition flattening_keeps_other_keys : Prop :=
  ∀ (params inner out : dict) (k : string),
    dict_get params k = Some (VDict inner) →
    Forall (λ kv, is_scalar kv.2 = true ∧ is_bool kv.2 = false) inner →
    encode_params params = (Ok (), out) →
    dict_get out k = None ∧
    (∀ a va, dict_get inner a = Some va →
             dict_get out (nested_name k a) = Some va) ∧
    (∀ k' v, k' ≠ k → dict_get params k' = Some v → dict_get out k' = Some v).

(** Scalars and nested mappings in, neither mappings nor booleans out. *)
Definition encoding_always_flat : Prop :=
  ∀ params out : dict,
    NoDup (dict_keys params) →
    Forall (λ kv, is_scalar kv.2 = true ∨ is_dict kv.2 = true) params →
    encode_params params = (Ok (), out) →
    Forall (λ kv, is_dict kv.2 = false ∧ is_bool kv.2 = false) out.

(** What the loop has still to flatten: an entry is a scalar of the input,
    or a nested mapping of the input under one of the keys [ks]. *)
Definition settled (params : dict) (ks : list string) (kv : string * value)
  : Prop :=
  source params kv.2 ∨ (kv.1 ∈ ks ∧ kv ∈ params ∧ is_dict kv.2 = true).

(** ** Calls of the endpoint methods *)

(** One constructor per method of [Client], with the arguments of the call;
    [kwds] is the mapping of the keyword arguments. *)
Inductive call : Type :=
  | CreateCharge (amount currency : value) (kwds : dict)
  | RetrieveCharge (charge_id : value)
  | UpdateCharge (charge_id : value) (kwds : dict)
  | CaptureCharge (charge_id : value) (kwds : dict)
  | ListCharges (kwds : dict)
  | CreateCustomer (kwds : dict)
  | RetrieveCustomer (customer_id : value)
  | UpdateCustomer (customer_id : value) (kwds : dict)
  | DeleteCustomer (customer_id : value)
  | ListCustomers (kwds : dict)
  | CreateCard (customer_id source metadata : value)
  | DeleteCard (customer_id source_id : value)
  | UpdateCard (customer_id source_id : value) (kwds : dict)
  | CreateRefund (charge_id : value) (kwds : dict)
  | RetrieveRefund (refund_id : value)
  | UpdateRefund (refund_id metadata : value)
  | ListRefunds (kwds : dict)
  | CreateSource (kwds : dict)
  | RetrieveSource (source_id : value).

Definition run_call (py_repr : value → string) (self : Client) (c : call)
  : SE world value :=
  match c with
  | CreateCharge amount currency kwds =>
      create_charge py_repr self amount currency kwds
  | RetrieveCharge charge_id => retrieve_charge py_repr self charge_id
  | UpdateCharge charge_id kwds => update_charge py_repr self charge_id kwds
  | CaptureCharge charge_id kwds => capture_charge py_repr self charge_id kwds
  | ListCharges kwds => list_charges py_repr self kwds
  | CreateCustomer kwds => create_customer py_repr self kwds
  | RetrieveCustomer customer_id => retrieve_customer py_repr self customer_id
  | UpdateCustomer customer_id kwds =>
      update_customer py_repr self customer_id kwds
  | DeleteCustomer customer_id => delete_customer py_repr self customer_id
  | ListCustomers kwds => list_customers py_repr self kwds
  | CreateCard customer_id source metadata =>
      create_card py_repr self customer_id source metadata
  | DeleteCard customer_id source_id =>
      delete_card py_repr self customer_id source_id
  | UpdateCard customer_id source_id kwds =>
      update_card py_repr self customer_id source_id kwds
  | CreateRefund charge_id kwds => create_refund py_repr self charge_id kwds
  | RetrieveRefund refund_id => retrieve_refund py_repr self refund_id
  | UpdateRefund refund_id metadata =>
      update_refund py_repr self refund_id metadata
  | ListRefunds kwds => list_refunds py_repr self kwds
  | CreateSource kwds => create_source py_repr self kwds
  | RetrieveSource source_id => retrieve_source py_repr self source_id
  end.

(** A computation that leaves every object of the store it starts from as
    it was, and one that can only change the object at [p]. *)
Definition preserving {A} (m : SE world A) : Prop :=
  ∀ w q d, heap w !! q = Some d → heap (m w).2 !! q = Some d.

Definition touches_only {A} (p : loc) (m : SE world A) : Prop :=
  ∀ w q, q ≠ p → heap (m w).2 !! q = heap w !! q.

(** The claim as worded: [_req] leaves the mapping it is given as it was. *)
Definition req_leaves_params_unchanged : Prop :=
  ∀ (py_repr : value → string) (self : Client) (method page : string)
    (p : loc) (w : world) (d : dict),
    heap w !! p = Some d →
    heap (_req py_repr self method page (Some p) w).2 !! p = Some d.

(** A session that answers every request with a charge. *)
Definition charge_session (rq : request) : result response :=
  Ok (json_response 200 (VDict [("id", VStr "ch_1"); ("object", VStr "charge")])).

Definition demo_client : Client :=
  Client_init charge_session "secret_key" DEFAULT_VERSION.

(** ** [create_json_request] *)

(** [{k: v for k, v in items}]: the entries are inserted one by one. *)
Definition dict_of_items (items : dict) : dict := dict_update [] items.

Fixpoint create_json_request (req : value) : value :=
  match req with
  | VDict d =>
      VDict (dict_of_items
               ((fix each (d : dict) : dict :=
                   match d with
                   | [] => []
                   | (k, v) :: d' => (k, create_json_request v) :: each d'
                   end) d))
  | VList l =>
      VList ((fix each (l : list value) : list value :=
                match l with
                | [] => []
                | v :: l' => create_json_request v :: each l'
                end) l)
  | _ => req
  end.

(** The keys of every dict in [v], at any depth, are unique: what holds of
    every value Python builds. *)
Fixpoint wf_value (v : value) : Prop :=
  match v with
  | VList l =>
      (fix all (l : list value) : Prop :=
         match l with
         | [] => True
         | x :: l' => wf_value x ∧ all l'
         end) l
  | VDict d =>
      NoDup (dict_keys d) ∧
      (fix all (d : dict) : Prop :=
         match d with
         | [] => True
         | kv :: d' => wf_value kv.2 ∧ all d'
         end) d
  | _ => True
  end.

(** ** More on what the encoder and the normalisation produce *)

(** An entry as it is sent. *)
Definition conv_entry (kv : string * value) : string * value :=
  (kv.1, conv_bool kv.2).

(** Neither a nested mapping nor a boolean. *)
Definition flat (v : value) : bool := negb (is_dict v) && negb (is_bool v).

(** A value in which no list envelope is left where the normalisation
    looks: not an envelope itself, and if a list, a list of such values. *)
Fixpoint normal (v : value) : bool :=
  match v with
  | VList l =>
      (fix all (l : list value) : bool :=
         match l with
         | [] => true
         | x :: l' => normal x && all l'
         end) l
  | VDict d => negb (is_list_envelope d)
  | _ => true
  end.

(** Every mapping tagged [object == 'list'], at any depth, has a list under
    ['data']. *)
Fixpoint envelopes_listed (v : value) : bool :=
  match v with
  | VList l =>
      (fix all (l : list value) : bool :=
         match l with
         | [] => true
         | x :: l' => envelopes_listed x && all l'
         end) l
  | VDict d =>
      implb (is_list_envelope d)
            (match dict_get d "data" with Some (VList _) => true | _ => false end) &&
      (fix all (d : dict) : bool :=
         match d with
         | [] => true
         | kv :: d' => envelopes_listed kv.2 && all d'
         end) d
  | _ => true
  end.

(** ** What a call of [_req] and of an endpoint method amounts to *)

Definition req_headers (self : Client) : list (string * string) :=
  [("Content-Type", "application/x-www-form-urlencoded");
   ("Stripe-Version", _version self)].

Definition req_url (self : Client) (page : string) : string :=
  _url self +:+ "/" +:+ py_lstrip "/" page.

(** [_req] on the mapping [d] held at [p]: the encoder runs on it, and if
    it completes the session is handed the request and its answer is
    classified. *)
Definition req_outcome (py_repr : value → string) (self : Client)
    (method page : string) (d : dict) (p : loc) (w : world)
  : result value * world :=
  match encode_params d with
  | (Ok _, d') =>
      let rq := mk_request (py_upper method) (req_url self page) d'
                  (_auth self) (req_headers self) in
      (_session self rq ≫= handle_response py_repr method,
       mk_world (<[p := d']> (heap w)) (sent w ++ [rq]))
  | (Raise e, d') => (Raise e, mk_world (<[p := d']> (heap w)) (sent w))
  end.

(** The method, the page and the mapping each endpoint method passes to
    [_req]. *)
Definition call_verb (c : call) : string :=
  match c with
  | RetrieveCharge _ | ListCharges _ | RetrieveCustomer _ | ListCustomers _
  | RetrieveRefund _ | ListRefunds _ | RetrieveSource _ => "get"
  | DeleteCustomer _ | DeleteCard _ _ => "delete"
  | _ => "post"
  end.

Definition call_page (py_repr : value → string) (c : call) : string :=
  match c with
  | CreateCharge _ _ _ | ListCharges _ => "/charges"
  | RetrieveCharge id | UpdateCharge id _ => "/charges/" +:+ py_str py_repr id
  | CaptureCharge id _ => "/charges/" +:+ py_str py_repr id +:+ "/capture"
  | CreateCustomer _ | ListCustomers _ => "/customers"
  | RetrieveCustomer id | UpdateCustomer id _ | DeleteCustomer id =>
      "/customers/" +:+ py_str py_repr id
  | CreateCard id _ _ => "/customers/" +:+ py_str py_repr id +:+ "/sources"
  | DeleteCard id source_id | UpdateCard id source_id _ =>
      "/customers/" +:+ py_str py_repr id +:+ "/sources/"
      +:+ py_str py_repr source_id
  | CreateRefund _ _ | ListRefunds _ => "/refunds"
  | RetrieveRefund id | UpdateRefund id _ => "/refunds/" +:+ py_str py_repr id
  | CreateSource _ => "/sources"
  | RetrieveSource id => "/sources/" +:+ py_str py_repr id
  end.

Definition call_params (c : call) : dict :=
  match c with
  | CreateCharge amount currency kwds =>
      dict_update [("amount", amount); ("currency", currency)] kwds
  | UpdateCharge _ kwds | CaptureCharge _ kwds | ListCharges kwds
  | CreateCustomer kwds | UpdateCustomer _ kwds | ListCustomers kwds
  | UpdateCard _ _ kwds | ListRefunds kwds | CreateSource kwds => kwds
  | CreateCard _ source metadata =>
      match metadata with
      | VNone => [("source", source)]
      | _ => [("source", source); ("metadata", metadata)]
      end
  | CreateRefund charge_id kwds => dict_update [("charge", charge_id)] kwds
  | UpdateRefund _ metadata => [("metadata", metadata)]
  | RetrieveCharge _ | RetrieveCustomer _ | DeleteCustomer _ | DeleteCard _ _
  | RetrieveRefund _ | RetrieveSource _ => []
  end.

(** [delete_customer] and [delete_card] drop what [_req] returns. *)
Definition call_result (c : call) (v : value) : value :=
  match c with
  | DeleteCustomer _ | DeleteCard _ _ => VNone
  | _ => v
  end.

(** A request of this client: one of the three methods, a URL under the
    base URL, the credentials and the two headers. *)
Definition well_addressed (self : Client) (rq : request) : Prop :=
  (rq_method rq = "GET" ∨ rq_method rq = "POST" ∨ rq_method rq = "DELETE") ∧
  (∃ page, rq_url rq = _url self +:+ "/" +:+ page) ∧
  rq_auth rq = _auth self ∧
  rq_headers rq = req_headers self.

(** A session that cannot connect. *)
Definition failing_session (rq : request) : result response :=
  Raise (TransportError "Cannot connect to host api.stripe.com:443").

Definition offline_client : Client :=
  Client_init failing_session "secret_key" LAST_VERSION.

(** * Properties *)

(** ** Strings *)

Lemma string_app_cons (c : ascii) (s t : string) :
  String c s +:+ t = String c (s +:+ t).
Proof. reflexivity. Qed.

Lemma string_app_nil_r (s : string) : s +:+ "" = s.
Proof.
  induction s as [|c s IH]; [done|]. by rewrite string_app_cons, IH.
Qed.

Lemma string_app_assoc (s1 s2 s3 : string) :
  (s1 +:+ s2) +:+ s3 = s1 +:+ (s2 +:+ s3).
Proof.
  induction s1 as [|c s1 IH]; [done|]. by rewrite !string_app_cons, IH.
Qed.

Lemma string_app_inj_l (s t1 t2 : string) : s +:+ t1 = s +:+ t2 → t1 = t2.
Proof.
  induction s as [|c s IH]; [done|]. rewrite !string_app_cons. intros [= H]. auto.
Qed.

Lemma string_snoc_inj (t1 t2 : string) (c : ascii) :
  t1 +:+ String c "" = t2 +:+ String c "" → t1 = t2.
Proof.
  revert t2. induction t1 as [|a t1 IH]; intros [|b t2]; try done.
  - rewrite string_app_cons. intros [= -> H]. by destruct t2.
  - rewrite string_app_cons. intros [= -> H]. by destruct t1.
  - rewrite !string_app_cons. intros [= -> H]. f_equal. auto.
Qed.

(** ** Results *)

Lemma map_result_app {A B} (f : A → result B) (l1 l2 : list A) :
  map_result f (l1 ++ l2) =
  (ys1 ← map_result f l1; ys2 ← map_result f l2; Ok (ys1 ++ ys2)).
Proof.
  induction l1 as [|x l1 IH]; simpl.
  - by destruct (map_result f l2).
  - destruct (f x) as [y|e]; simpl; [|done].
    rewrite IH. destruct (map_result f l1) as [ys1|e]; simpl; [|done].
    by destruct (map_result f l2).
Qed.

Lemma map_result_id {A} (f : A → result A) (l : list A) :
  Forall (λ x, f x = Ok x) l → map_result f l = Ok l.
Proof.
  induction 1 as [|x l Hx _ IH]; simpl; [done|]. by rewrite Hx; simpl; rewrite IH.
Qed.

(** ** [convert_json_response] *)

(** The list branch, line 418-419. *)
Lemma convert_json_response_list (l : list value) :
  convert_json_response (VList l) = VList <$> map_result convert_json_response l.
Proof.
  simpl. f_equal. induction l as [|x l IH]; simpl; [done|]. by rewrite IH.
Qed.

Lemma plain_convert (v : value) :
  plain v = true → convert_json_response v = Ok v.
Proof.
  destruct v as [| | | | | |l|d]; simpl; try done.
  by destruct (is_list_envelope d).
Qed.

Lemma py_iter_plain (v : value) (items : list value) :
  is_list v = false → py_iter v = Ok items → Forall (λ x, plain x = true) items.
Proof.
  destruct v as [| | | | s|s|l|d]; simpl; try done; intros _ [= <-].
  - apply Forall_forall. intros x Hx. apply list_elem_of_fmap in Hx as (kv & -> & _). done.
  - apply Forall_forall. intros x Hx. apply list_elem_of_fmap in Hx as (kv & -> & _). done.
  - apply Forall_forall. intros x Hx. apply list_elem_of_fmap in Hx as (kv & -> & _). done.
Qed.

(** The dict branch as lines 420-421 read: [[convert_json_response(r) for r
    in resp['data']]] for an envelope, [resp] otherwise. *)
Lemma convert_json_response_dict (d : dict) :
  convert_json_response (VDict d) =
  if is_list_envelope d then
    data ← py_getitem d "data";
    items ← py_iter data;
    VList <$> map_result convert_json_response items
  else Ok (VDict d).
Proof.
  simpl. destruct (is_list_envelope d); [|done].
  unfold py_getitem. induction d as [|[k v] d IH]; simpl; [done|].
  destruct (String.eqb k "data"); [|exact IH]. simpl.
  destruct v as [| | | | s|s|l|d']; try done.
  - simpl. rewrite map_result_id; [done|].
    apply Forall_forall. intros x Hx. apply list_elem_of_fmap in Hx as (c & -> & _). done.
  - simpl. rewrite map_result_id; [done|].
    apply Forall_forall. intros x Hx. apply list_elem_of_fmap in Hx as (c & -> & _). done.
  - apply convert_json_response_list.
  - simpl. rewrite map_result_id; [done|].
    apply Forall_forall. intros x Hx. apply list_elem_of_fmap in Hx as (c & -> & _). done.
Qed.

Arguments convert_json_response : simpl never.

Lemma dict_get_elem (d : dict) (k : string) (v : value) :
  dict_get d k = Some v → (k, v) ∈ d.
Proof.
  induction d as [|[k' v'] d IH]; simpl; [done|].
  destruct (String.eqb_spec k' k) as [->|_].
  - intros [= ->]. left.
  - intros H. right. auto.
Qed.

Lemma dict_get_Forall (P : value → Prop) (d : dict) (k : string) (v : value) :
  Forall (λ kv, P kv.2) d → dict_get d k = Some v → P v.
Proof.
  intros HP Hget. apply dict_get_elem in Hget.
  rewrite Forall_forall in HP. exact (HP _ Hget).
Qed.

Lemma map_result_raise {A B} (f : A → result B) (l : list A) (e : exn) :
  map_result f l = Raise e → ∃ x, x ∈ l ∧ f x = Raise e.
Proof.
  induction l as [|x l IH]; simpl; [done|].
  destruct (f x) as [y|e'] eqn:Hx; simpl.
  - destruct (map_result f l) as [ys|e'']; simpl; [done|].
    intros [= ->]. destruct IH as (x' & Hin & Hx'); [done|].
    exists x'. split; [by right|done].
  - intros [= ->]. exists x. split; [left|done].
Qed.

Lemma map_result_fixed (l ys : list value) :
  Forall (λ v, convert_json_response v ≫= convert_json_response
               = convert_json_response v) l →
  map_result convert_json_response l = Ok ys →
  map_result convert_json_response ys = Ok ys.
Proof.
  intros HP. revert ys. induction HP as [|x l Hx _ IH]; simpl; intros ys.
  - by intros [= <-].
  - destruct (convert_json_response x) as [y|e] eqn:Hy; simpl; [|done].
    destruct (map_result convert_json_response l) as [ys'|e]; simpl; [|done].
    intros [= <-]. simpl in Hx. simpl. rewrite Hx. simpl. by rewrite (IH ys').
Qed.

Lemma convert_json_response_twice (v : value) :
  convert_json_response v ≫= convert_json_response = convert_json_response v.
Proof.
  induction v as [| | | | | |l IH|d IH] using value_ind'; try done.
  - rewrite convert_json_response_list.
    destruct (map_result convert_json_response l) as [ys|e] eqn:Hl; simpl; [|done].
    rewrite convert_json_response_list, (map_result_fixed l ys); done.
  - rewrite convert_json_response_dict.
    destruct (is_list_envelope d) eqn:Henv; simpl.
    + unfold py_getitem.
      destruct (dict_get d "data") as [data|] eqn:Hdata; simpl; [|done].
      destruct (is_list data) eqn:Hlist.
      * destruct data as [| | | | | |l|]; try done. simpl.
        rewrite <- convert_json_response_list.
        exact (dict_get_Forall
                 (λ v, convert_json_response v ≫= convert_json_response
                       = convert_json_response v) d "data" _ IH Hdata).
      * destruct (py_iter data) as [items|e] eqn:Hiter; simpl; [|done].
        assert (map_result convert_json_response items = Ok items) as Hid.
        { apply map_result_id. eapply Forall_impl.
          - exact (py_iter_plain _ _ Hlist Hiter).
          - intros x. apply plain_convert. }
        rewrite Hid. simpl. rewrite convert_json_response_list, Hid. done.
    + rewrite convert_json_response_dict, Henv. done.
Qed.

Lemma envelopes_have_data_list (l : list value) :
  envelopes_have_data (VList l) = forallb envelopes_have_data l.
Proof. simpl. induction l as [|x l IH]; simpl; [done|]. by rewrite IH. Qed.

Lemma envelopes_have_data_dict (d : dict) :
  envelopes_have_data (VDict d) =
  implb (is_list_envelope d) (dict_mem d "data") &&
  forallb (λ kv, envelopes_have_data kv.2) d.
Proof. reflexivity. Qed.

Lemma convert_json_response_no_KeyError (v : value) (k : string) :
  envelopes_have_data v = true → convert_json_response v ≠ Raise (KeyError k).
Proof.
  induction v as [| | | | | |l IH|d IH] using value_ind'; try done.
  - rewrite envelopes_have_data_list, convert_json_response_list.
    intros Hall Hraise.
    destruct (map_result convert_json_response l) as [ys|e] eqn:Hl; [done|].
    simpl in Hraise. injection Hraise as ->.
    apply map_result_raise in Hl as (x & Hin & Hx).
    rewrite Forall_forall in IH. apply (IH x Hin); [|done].
    rewrite forallb_forall in Hall. apply Hall. by apply list_elem_of_In.
  - rewrite envelopes_have_data_dict, convert_json_response_dict.
    intros [Himp Hall]%andb_prop.
    destruct (is_list_envelope d) eqn:Henv; [|done]. simpl in Himp.
    unfold py_getitem, dict_mem in *.
    destruct (dict_get d "data") as [data|] eqn:Hdata; [|done]. simpl.
    destruct (is_list data) eqn:Hlist.
    + destruct data as [| | | | | |l|]; try done. simpl.
      rewrite <- convert_json_response_list.
      apply (dict_get_Forall
               (λ v, envelopes_have_data v = true →
                     convert_json_response v ≠ Raise (KeyError k))
               d "data" _ IH Hdata).
      rewrite forallb_forall in Hall.
      apply dict_get_elem, list_elem_of_In in Hdata. exact (Hall _ Hdata).
    + destruct (py_iter data) as [items|e] eqn:Hiter; simpl.
      * rewrite map_result_id; [done|]. eapply Forall_impl.
        -- exact (py_iter_plain _ _ Hlist Hiter).
        -- intros x. apply plain_convert.
      * destruct data; simpl in Hiter; try done; by injection Hiter as <-.
Qed.

(** C7. [convert_json_response] follows one case split: a sequence gives the
    sequence of its normalised elements; a mapping whose ['object'] is
    ["list"] gives the sequence of the normalised elements of its ['data']
    entry, whatever else the envelope holds; every other value is returned
    as it is.  So [{object: "list", data: [x, y]}] with [x], [y] neither
    sequences nor envelopes gives [[x, y]], and the envelopes inside a
    sequence are unwrapped one by one. *)
Theorem convert_json_response_case_split :
  (∀ l : list value,
     convert_json_response (VList l)
     = VList <$> map_result convert_json_response l) ∧
  (∀ d : dict, is_list_envelope d = true →
     convert_json_response (VDict d)
     = (data ← py_getitem d "data";
        items ← py_iter data;
        VList <$> map_result convert_json_response items)) ∧
  (∀ v : value, plain v = true → convert_json_response v = Ok v) ∧
  (∀ x y : value, plain x = true → plain y = true →
     convert_json_response
       (VDict [("object", VStr "list"); ("data", VList [x; y])])
     = Ok (VList [x; y])) ∧
  (∀ (d1 d2 : dict) (xs ys : list value),
     is_list_envelope d1 = true → dict_get d1 "data" = Some (VList xs) →
     is_list_envelope d2 = true → dict_get d2 "data" = Some (VList ys) →
     Forall (λ x, plain x = true) xs → Forall (λ y, plain y = true) ys →
     convert_json_response (VList [VDict d1; VDict d2])
     = Ok (VList [VList xs; VList ys])).
Proof.
  assert (∀ (d : dict) (xs : list value),
            is_list_envelope d = true → dict_get d "data" = Some (VList xs) →
            Forall (λ x, plain x = true) xs →
            convert_json_response (VDict d) = Ok (VList xs)) as Henvelope.
  { intros d xs Henv Hdata Hxs.
    rewrite convert_json_response_dict, Henv. unfold py_getitem. rewrite Hdata.
    simpl. rewrite map_result_id; [done|].
    eapply Forall_impl; [exact Hxs|]. intros x. apply plain_convert. }
  split; [exact convert_json_response_list|].
  split; [intros d Henv; by rewrite convert_json_response_dict, Henv|].
  split; [exact plain_convert|].
  split.
  - intros x y Hx Hy. apply Henvelope; [done|done|]. by repeat constructor.
  - intros d1 d2 xs ys He1 Hd1 He2 Hd2 Hxs Hys.
    rewrite convert_json_response_list. simpl.
    rewrite (Henvelope d1 xs), (Henvelope d2 ys); done.
Qed.

Lemma convert_json_response_case_split_witness :
  convert_json_response
    (VDict [("object", VStr "list"); ("url", VStr "/v1/charges");
            ("has_more", VBool false);
            ("data", VList [VDict [("object", VStr "charge"); ("amount", VInt 103)];
                            VDict [("object", VStr "charge"); ("amount", VInt 7)]])])
  = Ok (VList [VDict [("object", VStr "charge"); ("amount", VInt 103)];
               VDict [("object", VStr "charge"); ("amount", VInt 7)]]) ∧
  convert_json_response
    (VList [VDict [("object", VStr "list"); ("data", VList [VInt 1])];
            VDict [("object", VStr "list"); ("data", VList [VStr "a"])]])
  = Ok (VList [VList [VInt 1]; VList [VStr "a"]]).
Proof.
  destruct convert_json_response_case_split as (_ & Henv & Hplain & _ & Hnested).
  split.
  - rewrite Henv; reflexivity.
  - apply Hnested; try reflexivity; repeat constructor.
Defined.

(** C8. Normalisation leaves a mapping whose ['object'] is present and is not
    ["list"] as it is, and normalising twice gives what normalising once
    gives. *)
Theorem convert_json_response_idempotent :
  (∀ (d : dict) (o : value),
     dict_get d "object" = Some o → py_eq_str o "list" = false →
     convert_json_response (VDict d) = Ok (VDict d)) ∧
  (∀ v : value,
     convert_json_response v ≫= convert_json_response
     = convert_json_response v).
Proof.
  split; [|exact convert_json_response_twice].
  intros d o Hobj Hne. apply plain_convert. simpl.
  unfold is_list_envelope, dict_get_default. by rewrite Hobj, Hne.
Qed.

Lemma convert_json_response_idempotent_witness :
  convert_json_response
    (VDict [("id", VStr "ch_1"); ("object", VStr "charge");
            ("refunds", VDict [("object", VStr "list"); ("data", VList [])])])
  = Ok (VDict [("id", VStr "ch_1"); ("object", VStr "charge");
               ("refunds", VDict [("object", VStr "list"); ("data", VList [])])]).
Proof.
  apply (proj1 convert_json_response_idempotent _ (VStr "charge")); reflexivity.
Defined.

(** C10. The ['data'] lookup of [convert_json_response] is unguarded: on a
    mapping tagged [object == "list"] that has no ['data'] it raises
    [KeyError] instead of returning; when every mapping tagged so has a
    ['data'] entry, the lookup never fails. *)
Theorem convert_json_response_data_lookup :
  (∀ d : dict, is_list_envelope d = true → dict_get d "data" = None →
     convert_json_response (VDict d) = Raise (KeyError "data")) ∧
  (∀ (v : value) (k : string), envelopes_have_data v = true →
     convert_json_response v ≠ Raise (KeyError k)).
Proof.
  split; [|exact convert_json_response_no_KeyError].
  intros d Henv Hdata.
  rewrite convert_json_response_dict, Henv. unfold py_getitem. by rewrite Hdata.
Qed.

Lemma convert_json_response_data_lookup_witness :
  convert_json_response (VDict [("object", VStr "list"); ("has_more", VBool false)])
  = Raise (KeyError "data") ∧
  convert_json_response
    (VList [VDict [("object", VStr "list"); ("data", VList [VInt 1])]])
  ≠ Raise (KeyError "data").
Proof.
  split.
  - apply (proj1 convert_json_response_data_lookup); reflexivity.
  - apply (proj2 convert_json_response_data_lookup); reflexivity.
Defined.

(** ** The response handling of [_req] *)

Section response_properties.
Variable py_repr : value → string.

Lemma addstr_decline (self : stripe_error) (fmt : string) :
  addstr py_repr self "decline" fmt = Ok "".
Proof. reflexivity. Qed.

(** [addstr] with one of the six formats of lines 36-41 always returns. *)
Lemma addstr_Ok (self : stripe_error) (key pre post : string) :
  (∀ v, py_mod py_repr (pre +:+ "%s" +:+ post) [v]
        = Ok (pre +:+ py_str py_repr v +:+ post)) →
  ∃ s, addstr py_repr self key (pre +:+ "%s" +:+ post) = Ok s.
Proof.
  intros Hfmt. unfold addstr.
  destruct (_ && _); [rewrite Hfmt|]; eauto.
Qed.

Lemma stripe_error_summary_Ok (self : stripe_error) (status : Z) :
  ∃ a1 a2 a3 a4 a6,
    addstr py_repr self "type" " %s:" = Ok a1 ∧
    addstr py_repr self "charge" " charge: %s" = Ok a2 ∧
    addstr py_repr self "message" (" message: " +:+ dquote +:+ "%s" +:+ dquote) = Ok a3 ∧
    addstr py_repr self "code" " code: %s" = Ok a4 ∧
    addstr py_repr self "param" " param: %s" = Ok a6 ∧
    py_mod py_repr "%s:%s%s%s%s%s%s"
      [VInt status; VStr a1; VStr a2; VStr a3; VStr a4; VStr ""; VStr a6]
    = Ok (py_str py_repr (VInt status) +:+ ":" +:+ a1 +:+ a2 +:+ a3 +:+ a4
          +:+ "" +:+ a6 +:+ "").
Proof.
  destruct (addstr_Ok self "type" " " ":") as [a1 H1]; [done|].
  destruct (addstr_Ok self "charge" " charge: " "") as [a2 H2]; [done|].
  destruct (addstr_Ok self "message" (" message: " +:+ dquote) dquote) as [a3 H3]; [done|].
  destruct (addstr_Ok self "code" " code: " "") as [a4 H4]; [done|].
  destruct (addstr_Ok self "param" " param: " "") as [a6 H6]; [done|].
  exists a1, a2, a3, a4, a6. repeat split; done.
Qed.

(** The constructor returns once the attribute assignments do, and keeps
    what they assigned. *)
Lemma StripeError_init_fields (status : Z) (body : value) (self : stripe_error) :
  stripe_error_fields status body = Ok self →
  ∃ summary,
    StripeError_init py_repr status body
    = Ok (mk_stripe_error (se_type self) (se_charge self) (se_message self)
            (se_code self) (se_decline_code self) (se_param self)
            (se_http_code self) summary).
Proof.
  intros Hself. unfold StripeError_init. rewrite Hself. simpl.
  destruct (stripe_error_summary_Ok self status)
    as (a1 & a2 & a3 & a4 & a6 & H1 & H2 & H3 & H4 & H6 & Hsum).
  unfold mbind, result_bind.
  rewrite H1, H2, H3, H4, H6. eauto.
Qed.

Lemma stripe_error_fields_http_code (status : Z) (body : value) (self : stripe_error) :
  stripe_error_fields status body = Ok self → se_http_code self = status.
Proof.
  unfold stripe_error_fields. destruct body as [| | | | | | |b]; try by intros [= <-].
  destruct (py_truthy _); [|by intros [= <-]].
  destruct (dict_get_default b "error" (VDict [])); try done.
  simpl. by intros [= <-].
Qed.

(** With a mapping under ['error'], each attribute is the entry of its name,
    or [''] when there is none. *)
Lemma stripe_error_fields_mapping (status : Z) (b err : dict) :
  dict_get b "error" = Some (VDict err) → err ≠ [] →
  stripe_error_fields status (VDict b)
  = Ok (mk_stripe_error
          (dict_get_default err "type" (VStr ""))
          (dict_get_default err "charge" (VStr ""))
          (dict_get_default err "message" (VStr ""))
          (dict_get_default err "code" (VStr ""))
          (dict_get_default err "decline_code" (VStr ""))
          (dict_get_default err "param" (VStr ""))
          status "").
Proof.
  intros Herr Hne. unfold stripe_error_fields.
  replace (dict_get_default b "error" (VDict [])) with (VDict err)
    by (unfold dict_get_default; by rewrite Herr).
  by destruct err.
Qed.

Lemma convert_json_response_raises (v : value) (e : exn) :
  convert_json_response v = Raise e →
  e = KeyError "data" ∨ e = TypeError "object is not iterable".
Proof.
  revert e. induction v as [| | | | | |l IH|d IH] using value_ind'; try done.
  - intros e. rewrite convert_json_response_list.
    destruct (map_result convert_json_response l) as [ys|e'] eqn:Hl; [done|].
    simpl. intros [= <-].
    apply map_result_raise in Hl as (x & Hin & Hx).
    rewrite Forall_forall in IH. exact (IH x Hin _ Hx).
  - intros e. rewrite convert_json_response_dict.
    destruct (is_list_envelope d); [|done]. unfold py_getitem.
    destruct (dict_get d "data") as [data|] eqn:Hdata; simpl;
      [|intros [= <-]; by left].
    destruct (is_list data) eqn:Hlist.
    + destruct data as [| | | | | |l|]; try done. simpl.
      rewrite <- convert_json_response_list.
      exact (dict_get_Forall
               (λ v, ∀ e, convert_json_response v = Raise e →
                          e = KeyError "data" ∨ e = TypeError "object is not iterable")
               d "data" _ IH Hdata e).
    + destruct (py_iter data) as [items|e'] eqn:Hiter; simpl.
      * rewrite map_result_id; [done|]. eapply Forall_impl.
        -- exact (py_iter_plain _ _ Hlist Hiter).
        -- intros x. apply plain_convert.
      * intros [= <-]. right.
        destruct data; simpl in Hiter; try done; by injection Hiter as <-.
Qed.

Lemma py_get_raises (o : value) (k : string) (dflt : value) (e : exn) :
  py_get o k dflt = Raise e → e = AttributeError "get".
Proof. destruct o; simpl; try done; by intros [= <-]. Qed.

Lemma py_contains_raises (o : value) (k : string) (e : exn) :
  py_contains o k = Raise e → ∃ msg, e = TypeError msg.
Proof. destruct o; simpl; try done; intros [= <-]; eauto. Qed.

Lemma StripeError_init_raises (status : Z) (body : value) (e : exn) :
  StripeError_init py_repr status body = Raise e → e = AttributeError "get".
Proof.
  intros Hinit.
  destruct (stripe_error_fields status body) as [self|e'] eqn:Hself.
  - destruct (StripeError_init_fields _ _ _ Hself) as [summary Hsum]. congruence.
  - unfold StripeError_init in Hinit. rewrite Hself in Hinit.
    injection Hinit as <-. unfold stripe_error_fields in Hself.
    destruct body as [| | | | | | |b]; try done.
    destruct (py_truthy _); [|done].
    destruct (dict_get_default b "error" (VDict [])); try done;
      simpl in Hself; by injection Hself as <-.
Qed.

(** A [StripeError] comes from line 115 only, and carries the status. *)
Lemma handle_response_StripeError (method : string) (r : response)
    (body : value) (e : stripe_error) :
  read_body r = Ok body →
  handle_response py_repr method r = Raise (StripeError e) →
  r_status r ≠ 200 ∧ se_http_code e = r_status r.
Proof.
  intros Hbody. unfold handle_response. rewrite Hbody. simpl.
  destruct (r_status r =? 200) eqn:Hst; simpl.
  - destruct (String.eqb _ "DELETE").
    + destruct (py_get body "deleted" (VBool false)) as [deleted|e0] eqn:Hd; simpl.
      * destruct (py_truthy deleted); simpl; [done|].
        destruct (py_get body "id" VNone) as [id|e1] eqn:Hid; simpl; [done|].
        apply py_get_raises in Hid as ->. done.
      * apply py_get_raises in Hd as ->. done.
    + destruct (py_contains body "object") as [[]|e0] eqn:Hc; simpl.
      * intros H. apply convert_json_response_raises in H as [H|H]; done.
      * done.
      * apply py_contains_raises in Hc as [msg ->]. done.
  - destruct (StripeError_init py_repr (r_status r) body) as [e'|e0] eqn:Hinit;
      simpl.
    + intros [= <-]. split; [by apply Z.eqb_neq|].
      destruct (stripe_error_fields (r_status r) body) as [self|] eqn:Hself.
      * destruct (StripeError_init_fields _ _ _ Hself) as [summary Hsum].
        rewrite Hinit in Hsum. injection Hsum as ->. simpl.
        by eapply stripe_error_fields_http_code.
      * unfold StripeError_init in Hinit. by rewrite Hself in Hinit.
    + apply StripeError_init_raises in Hinit as ->. done.
Qed.

(** Any status other than 200 raises the [StripeError] built from the
    attribute assignments, when these complete. *)
Lemma handle_response_not_200 (method : string) (r : response) (body : value)
    (self : stripe_error) :
  read_body r = Ok body → r_status r ≠ 200 →
  stripe_error_fields (r_status r) body = Ok self →
  ∃ summary,
    handle_response py_repr method r
    = Raise (StripeError
               (mk_stripe_error (se_type self) (se_charge self) (se_message self)
                  (se_code self) (se_decline_code self) (se_param self)
                  (r_status r) summary)).
Proof.
  intros Hbody Hst Hself. unfold handle_response. rewrite Hbody. simpl.
  apply Z.eqb_neq in Hst. rewrite Hst. simpl.
  destruct (StripeError_init_fields _ _ _ Hself) as [summary ->]. simpl.
  rewrite (stripe_error_fields_http_code _ _ _ Hself). eauto.
Qed.

End response_properties.

Section response_claims.
Variable py_repr : value → string.

Lemma addstr_shown (self : stripe_error) (key pre post : string) :
  (∀ v, py_mod py_repr (pre +:+ "%s" +:+ post) [v]
        = Ok (pre +:+ py_str py_repr v +:+ post)) →
  addstr py_repr self key (pre +:+ "%s" +:+ post)
  = Ok (shown py_repr pre (stripe_getattr self key) post).
Proof.
  intros Hfmt. unfold addstr, shown.
  destruct (stripe_getattr self key); simpl; try done;
    try (destruct (negb _); by rewrite ?Hfmt);
    try (destruct (py_truthy _); by rewrite ?Hfmt).
  - destruct b; by rewrite ?Hfmt.
  - destruct f; by rewrite ?Hfmt.
  - destruct l; by rewrite ?Hfmt.
  - destruct d; by rewrite ?Hfmt.
Qed.

(** The message of a [StripeError]: the status, then the type, the charge,
    the message, the code and the parameter that are set and true.  The
    decline code is not among them. *)
Lemma StripeError_summary (status : Z) (body : value) (e : stripe_error) :
  StripeError_init py_repr status body = Ok e →
  se_summary e
  = py_str py_repr (VInt status) +:+ ":"
    +:+ shown py_repr " " (se_type e) ":"
    +:+ shown py_repr " charge: " (se_charge e) ""
    +:+ shown py_repr (" message: " +:+ dquote) (se_message e) dquote
    +:+ shown py_repr " code: " (se_code e) ""
    +:+ shown py_repr " param: " (se_param e) "".
Proof.
  unfold StripeError_init.
  destruct (stripe_error_fields status body) as [self|]; [|done].
  assert (addstr py_repr self "type" " %s:"
          = Ok (shown py_repr " " (se_type self) ":")) as H1
    by (by apply (addstr_shown self "type" " " ":")).
  assert (addstr py_repr self "charge" " charge: %s"
          = Ok (shown py_repr " charge: " (se_charge self) "")) as H2
    by (by apply (addstr_shown self "charge" " charge: " "")).
  assert (addstr py_repr self "message" (" message: " +:+ dquote +:+ "%s" +:+ dquote)
          = Ok (shown py_repr (" message: " +:+ dquote) (se_message self) dquote))
    as H3 by (by apply (addstr_shown self "message" (" message: " +:+ dquote) dquote)).
  assert (addstr py_repr self "code" " code: %s"
          = Ok (shown py_repr " code: " (se_code self) "")) as H4
    by (by apply (addstr_shown self "code" " code: " "")).
  assert (addstr py_repr self "param" " param: %s"
          = Ok (shown py_repr " param: " (se_param self) "")) as H6
    by (by apply (addstr_shown self "param" " param: " "")).
  unfold mbind, result_bind. rewrite H1, H2, H3, H4, addstr_decline, H6.
  intros [= <-]. simpl. by rewrite string_app_nil_r.
Qed.

(** C1. A 402 whose error mapping has a non-empty [decline_code]: the
    attribute is set, and the message of the error shows no
    [" decline: ..."] part, because [addstr] is asked for the attribute
    [decline], which no instance has. *)
Theorem decline_code_not_displayed :
  handle_response py_repr "post"
    (json_response 402
       (VDict [("error", VDict [("type", VStr "card_error");
                                ("code", VStr "card_declined");
                                ("decline_code", VStr "insufficient_funds")])]))
  = Raise (StripeError
             (mk_stripe_error (VStr "card_error") (VStr "") (VStr "")
                (VStr "card_declined") (VStr "insufficient_funds") (VStr "")
                402 "402: card_error: code: card_declined")).
Proof. reflexivity. Qed.

(** [test_error_parsing]: the attributes of the error raised for a 404 with
    the body of the test. *)
Lemma error_parsing_example :
  handle_response py_repr "post" (json_response 404 error_body)
  = Raise (StripeError
             (mk_stripe_error (VStr "invalid_request_error") (VStr "")
                (VStr "msg") (VStr "missing") (VStr "") (VStr "source") 404
                ("404: invalid_request_error: message: " +:+ dquote +:+ "msg"
                 +:+ dquote +:+ " code: missing param: source"))).
Proof. reflexivity. Qed.

(** C4. A 500 whose body has a string under ['error']: the status is not
    200, and what leaves [_req] is the [AttributeError] of [err.get] inside
    [StripeError.__init__], not a [StripeError]. *)
Theorem error_entry_not_a_mapping :
  handle_response py_repr "post"
    (json_response 500 (VDict [("error", VStr "Internal Server Error")]))
  = Raise (AttributeError "get").
Proof. reflexivity. Qed.

(** C5. A DELETE answered by a 200 with a mapping body returns [None] when
    ['deleted'] is [True], and raises [DeletionError] with the message
    ['Failed to delete <id>'] when ['deleted'] is [False] or absent; [<id>]
    is [None] when the body has no ['id']. *)
Theorem delete_response (method : string) (r : response) (body : dict) :
  py_upper method = "DELETE" → r_status r = 200 →
  read_body r = Ok (VDict body) →
  (dict_get body "deleted" = Some (VBool true) →
     handle_response py_repr method r = Ok VNone) ∧
  (dict_get body "deleted" = Some (VBool false) ∨ dict_get body "deleted" = None →
     handle_response py_repr method r
     = Raise (DeletionError
                ("Failed to delete "
                 +:+ py_str py_repr (dict_get_default body "id" VNone))) ∧
     (dict_get body "id" = None →
        handle_response py_repr method r
        = Raise (DeletionError "Failed to delete None"))).
Proof.
  intros Hmethod Hst Hbody. unfold handle_response.
  rewrite Hbody, Hst, Hmethod. simpl. unfold dict_get_default. split.
  - by intros ->.
  - intros Hdel.
    assert (py_truthy match dict_get body "deleted" with
                      | Some v => v
                      | None => VBool false
                      end = false) as -> by (by destruct Hdel as [-> | ->]).
    simpl. rewrite string_app_nil_r. split; [done|]. by intros ->.
Qed.

(** A 200 with a mapping body, on a method other than DELETE: without
    ['object'] it is a [ParseError] quoting the body, with it the result is
    the normalised body. *)
Lemma mapping_body_response (method : string) (r : response) (body : dict) :
  py_upper method ≠ "DELETE" → r_status r = 200 →
  read_body r = Ok (VDict body) →
  handle_response py_repr method r
  = if dict_mem body "object" then convert_json_response (VDict body)
    else Raise (ParseError ("Stripe response missing " +:+ dquote +:+ "object"
                            +:+ dquote +:+ ": " +:+ py_repr (VDict body))).
Proof.
  intros Hmethod Hst Hbody. unfold handle_response.
  rewrite Hbody, Hst. apply String.eqb_neq in Hmethod. rewrite Hmethod. simpl.
  destruct (dict_mem body "object"); simpl; [done|].
  by rewrite string_app_nil_r.
Qed.

(** C6. Two 200 answers to a GET whose body is not a mapping with an
    ['object'] entry, and no [ParseError]: an HTML payload makes the
    membership test raise [TypeError], and the JSON array [["object"]] is
    returned as the result. *)
Theorem body_not_a_mapping :
  handle_response py_repr "get" (raw_response 200 "text/html" "<html></html>")
  = Raise (TypeError "a bytes-like object is required, not 'str'") ∧
  handle_response py_repr "get" (json_response 200 (VList [VStr "object"]))
  = Ok (VList [VStr "object"]).
Proof. split; reflexivity. Qed.

End response_claims.

Lemma delete_response_witness :
  handle_response opaque_repr "delete"
    (json_response 200 (VDict [("deleted", VBool true); ("id", VStr "cus_X")]))
  = Ok VNone ∧
  handle_response opaque_repr "delete"
    (json_response 200 (VDict [("deleted", VBool false); ("id", VStr "cus_X")]))
  = Raise (DeletionError "Failed to delete cus_X").
Proof.
  split.
  - exact (proj1 (delete_response opaque_repr "delete"
                    (json_response 200
                       (VDict [("deleted", VBool true); ("id", VStr "cus_X")]))
                    [("deleted", VBool true); ("id", VStr "cus_X")]
                    eq_refl eq_refl eq_refl) eq_refl).
  - exact (proj1 (proj2 (delete_response opaque_repr "delete"
                    (json_response 200
                       (VDict [("deleted", VBool false); ("id", VStr "cus_X")]))
                    [("deleted", VBool false); ("id", VStr "cus_X")]
                    eq_refl eq_refl eq_refl) (or_introl eq_refl))).
Defined.

(** ** Dictionaries *)

Lemma dict_get_None (d : dict) (k : string) :
  dict_get d k = None ↔ k ∉ dict_keys d.
Proof.
  induction d as [|[k' v'] d IH]; simpl.
  - split; [intros _; apply not_elem_of_nil|done].
  - rewrite not_elem_of_cons. destruct (String.eqb_spec k' k) as [->|Hne].
    + split; [done|]. by intros [? _].
    + rewrite IH. split; [intros ?; split; [congruence|done]|by intros [_ ?]].
Qed.

Lemma dict_get_Some_key (d : dict) (k : string) (v : value) :
  dict_get d k = Some v → k ∈ dict_keys d.
Proof.
  intros H. destruct (decide (k ∈ dict_keys d)) as [|Hn]; [done|].
  apply dict_get_None in Hn. congruence.
Qed.

Lemma elem_dict_keys (d : dict) (k : string) (v : value) :
  (k, v) ∈ d → k ∈ dict_keys d.
Proof. intros H. apply list_elem_of_fmap. by exists (k, v). Qed.

(** With unique keys, an entry is what a lookup finds. *)
Lemma dict_get_unique (d : dict) (k : string) (v : value) :
  NoDup (dict_keys d) → (k, v) ∈ d → dict_get d k = Some v.
Proof.
  induction d as [|[k' v'] d IH]; simpl; intros Hnd Hin.
  - by apply elem_of_nil in Hin.
  - apply NoDup_cons in Hnd as [Hk' Hnd].
    apply elem_of_cons in Hin as [[= -> ->]|Hin].
    + by rewrite String.eqb_refl.
    + destruct (String.eqb_spec k' k) as [->|_]; [|auto].
      destruct Hk'. by eapply elem_dict_keys.
Qed.

Lemma dict_get_app (d1 d2 : dict) (k : string) :
  dict_get (d1 ++ d2) k
  = match dict_get d1 k with Some v => Some v | None => dict_get d2 k end.
Proof.
  induction d1 as [|[k' v'] d1 IH]; simpl; [done|].
  by destruct (String.eqb k' k).
Qed.

Lemma dict_get_set (d : dict) (k : string) (v : value) (q : string) :
  dict_get (dict_set d k v) q
  = if String.eqb k q then Some v else dict_get d q.
Proof.
  induction d as [|[k' v'] d IH]; simpl; [done|].
  destruct (String.eqb_spec k' k) as [->|Hne]; simpl.
  - by destruct (String.eqb k q).
  - rewrite IH. destruct (String.eqb_spec k' q) as [->|_]; [|done].
    destruct (String.eqb_spec k q) as [->|_]; done.
Qed.

Lemma dict_get_remove (d : dict) (k q : string) :
  dict_get (dict_remove d k) q
  = if String.eqb k q then None else dict_get d q.
Proof.
  induction d as [|[k' v'] d IH]; simpl; [by destruct (String.eqb k q)|].
  destruct (String.eqb_spec k' k) as [->|Hne]; simpl.
  - rewrite IH. by destruct (String.eqb k q).
  - rewrite IH. destruct (String.eqb_spec k' q) as [->|_]; [|done].
    destruct (String.eqb_spec k q) as [->|_]; done.
Qed.

(** [update] is last-wins on the entries it is given. *)
Lemma dict_get_update (d e : dict) (q : string) :
  dict_get (dict_update d e) q
  = match dict_get (reverse e) q with Some v => Some v | None => dict_get d q end.
Proof.
  unfold dict_update. revert d. induction e as [|[k v] e IH]; intros d; simpl; [done|].
  rewrite IH, reverse_cons, dict_get_app, dict_get_set. simpl.
  by destruct (dict_get (reverse e) q), (String.eqb k q).
Qed.

Lemma dict_keys_set (d : dict) (k : string) (v : value) :
  dict_keys (dict_set d k v)
  = if dict_mem d k then dict_keys d else dict_keys d ++ [k].
Proof.
  unfold dict_mem. induction d as [|[k' v'] d IH]; simpl; [done|].
  destruct (String.eqb k' k); simpl; [done|].
  rewrite IH. by destruct (dict_get d k).
Qed.

Lemma dict_set_NoDup (d : dict) (k : string) (v : value) :
  NoDup (dict_keys d) → NoDup (dict_keys (dict_set d k v)).
Proof.
  intros Hnd. rewrite dict_keys_set. unfold dict_mem.
  destruct (dict_get d k) eqn:Hk; [done|].
  apply NoDup_app. split; [done|]. split; [|apply NoDup_singleton].
  intros x Hx ->%list_elem_of_singleton. by apply dict_get_None in Hk.
Qed.

Lemma dict_remove_elem (d : dict) (k : string) (kv : string * value) :
  kv ∈ dict_remove d k ↔ kv ∈ d ∧ kv.1 ≠ k.
Proof.
  induction d as [|[k' v'] d IH]; simpl.
  - split; [by intros ?%elem_of_nil|by intros [?%elem_of_nil _]].
  - destruct (String.eqb_spec k' k) as [->|Hne].
    + rewrite IH, elem_of_cons. split; [intros [? ?]; split; [by right|done]|].
      intros [[->|?] ?]; [done|by split].
    + rewrite !elem_of_cons, IH. split.
      * intros [->|[? ?]]; [split; [by left|done]|split; [by right|done]].
      * intros [[->|?] ?]; [by left|right; by split].
Qed.

Lemma dict_remove_NoDup (d : dict) (k : string) :
  NoDup (dict_keys d) → NoDup (dict_keys (dict_remove d k)).
Proof.
  induction d as [|[k' v'] d IH]; simpl; [done|].
  intros [Hk' Hnd]%NoDup_cons. destruct (String.eqb k' k); simpl; [auto|].
  apply NoDup_cons. split; [|auto].
  intros (kv & Hfst & Hin)%list_elem_of_fmap.
  apply dict_remove_elem in Hin as [Hin _]. apply Hk'.
  apply list_elem_of_fmap. by exists kv.
Qed.

Lemma dict_set_elem (d : dict) (k : string) (v : value) (kv : string * value) :
  kv ∈ dict_set d k v → kv ∈ d ∨ kv = (k, v).
Proof.
  induction d as [|[k' v'] d IH]; simpl.
  - intros ->%list_elem_of_singleton. by right.
  - destruct (String.eqb_spec k' k) as [->|Hne].
    + intros [->|?]%elem_of_cons; [by right|left; by right].
    + intros [->|?]%elem_of_cons; [left; left|].
      destruct IH as [?|?]; [done|left; by right|by right].
Qed.

Lemma dict_update_NoDup (d e : dict) :
  NoDup (dict_keys d) → NoDup (dict_keys (dict_update d e)).
Proof.
  unfold dict_update. revert d. induction e as [|[k v] e IH]; intros d; simpl; [done|].
  intros Hnd. by apply IH, dict_set_NoDup.
Qed.

Lemma dict_update_elem (d e : dict) (kv : string * value) :
  kv ∈ dict_update d e → kv ∈ d ∨ kv ∈ e.
Proof.
  unfold dict_update. revert d. induction e as [|[k v] e IH]; intros d; simpl; [by left|].
  intros Hin. apply IH in Hin as [Hin|Hin]; [|right; by right].
  apply dict_set_elem in Hin as [Hin| ->]; [by left|right; left].
Qed.

Lemma dict_get_reverse (d : dict) (q : string) :
  NoDup (dict_keys d) → dict_get (reverse d) q = dict_get d q.
Proof.
  intros Hnd. destruct (dict_get d q) as [v|] eqn:Hq.
  - apply dict_get_unique.
    + unfold dict_keys. change (NoDup (fst <$> reverse d)).
      by rewrite fmap_reverse, reverse_Permutation.
    + apply elem_of_reverse. by apply dict_get_elem.
  - apply dict_get_None. apply dict_get_None in Hq.
    unfold dict_keys in *. change (q ∉ fst <$> reverse d).
    by rewrite fmap_reverse, elem_of_reverse.
Qed.

(** ** The parameter encoder *)

(** The inner loop of line 92-93 is an [update] with the renamed entries. *)
Lemma for_each_setitem (key : string) (items d : dict) :
  for_each items (λ kv, setitem (nested_name key kv.1) kv.2) d
  = (Ok (), dict_update d (renamed key items)).
Proof.
  unfold dict_update. revert d. induction items as [|[s v] items IH]; intros d; [done|].
  simpl. unfold mbind, se_bind, setitem at 1. simpl. by rewrite IH.
Qed.

(** One round of the outer loop, by what [params[key]] holds. *)
Lemma flatten_key_run (key : string) (d : dict) :
  flatten_key key d
  = match dict_get d key with
    | None => (Raise (KeyError key), d)
    | Some (VDict inner) =>
        (Ok (), dict_remove (dict_update d (renamed key inner)) key)
    | Some _ => (Raise (AttributeError "items"), d)
    end.
Proof.
  unfold flatten_key, mbind, se_bind, getitem.
  destruct (dict_get d key) as [v|] eqn:Hkey; [|done].
  destruct v as [| | | | | | |inner]; try done.
  unfold se_lift. simpl. rewrite for_each_setitem.
  unfold delitem, dict_mem. rewrite dict_get_update, Hkey.
  by destruct (dict_get (reverse (renamed key inner)) key).
Qed.

Lemma flatten_key_NoDup (key : string) (d : dict) :
  NoDup (dict_keys d) → NoDup (dict_keys (flatten_key key d).2).
Proof.
  intros Hnd. rewrite flatten_key_run.
  destruct (dict_get d key) as [[| | | | | | |inner]|]; try done.
  by apply dict_remove_NoDup, dict_update_NoDup.
Qed.

Lemma for_each_flatten_key_NoDup (ks : list string) (d : dict) :
  NoDup (dict_keys d) → NoDup (dict_keys (for_each ks flatten_key d).2).
Proof.
  revert d. induction ks as [|j ks IH]; intros d Hnd; [done|].
  simpl. unfold mbind, se_bind.
  pose proof (flatten_key_NoDup j d Hnd) as Hj.
  destruct (flatten_key j d) as [[[]|e] d1]; [by apply IH|done].
Qed.

Lemma dict_keys_renamed (key : string) (inner : dict) :
  dict_keys (renamed key inner) = map (nested_name key) (dict_keys inner).
Proof. unfold dict_keys, renamed. rewrite !map_map. done. Qed.

Lemma synth_cons (params : dict) (j : string) (ks : list string) :
  synth params (j :: ks)
  = match dict_get params j with
    | Some (VDict inner) => renamed j inner
    | _ => []
    end ++ synth params ks.
Proof. reflexivity. Qed.

(** The outer loop on keys [ks] that still hold their nested mapping, when
    no name it writes is one of [ks]: it completes, the keys [ks] are gone,
    a written name holds what was written to it last, and the rest is as
    before. *)
Lemma flatten_loop (params : dict) (ks : list string) (d : dict) :
  NoDup ks →
  (∀ j, j ∈ ks → ∃ inner, dict_get params j = Some (VDict inner) ∧
                           dict_get d j = Some (VDict inner)) →
  (∀ n, n ∈ dict_keys (synth params ks) → n ∉ ks) →
  ∃ d', for_each ks flatten_key d = (Ok (), d') ∧
        ∀ q, dict_get d' q
             = if decide (q ∈ ks) then None
               else match dict_get (reverse (synth params ks)) q with
                    | Some v => Some v
                    | None => dict_get d q
                    end.
Proof.
  revert d. induction ks as [|j ks IH]; intros d Hnd Hks Hnames.
  - exists d. split; [done|]. intros q. by rewrite decide_False by apply not_elem_of_nil.
  - apply NoDup_cons in Hnd as [Hj Hnd].
    destruct (Hks j) as (inner & Hpj & Hdj); [left|].
    rewrite synth_cons, Hpj in Hnames.
    assert (∀ n, n ∈ dict_keys (renamed j inner) → n ∉ j :: ks) as Hnew.
    { intros n Hn. apply Hnames. unfold dict_keys. rewrite map_app.
      apply elem_of_app. by left. }
    assert (∀ q, dict_get (dict_remove (dict_update d (renamed j inner)) j) q
                 = if String.eqb j q then None
                   else match dict_get (reverse (renamed j inner)) q with
                        | Some v => Some v
                        | None => dict_get d q
                        end) as Hd1.
    { intros q. by rewrite dict_get_remove, dict_get_update. }
    destruct (IH (dict_remove (dict_update d (renamed j inner)) j)) as (d' & Hrun & Hget).
    + done.
    + intros j' Hj'. destruct (Hks j') as (inner' & Hpj' & Hdj'); [by right|].
      exists inner'. split; [done|]. rewrite Hd1.
      destruct (String.eqb_spec j j') as [->|_]; [done|].
      destruct (dict_get (reverse (renamed j inner)) j') as [v|] eqn:Hrev; [|done].
      apply dict_get_Some_key in Hrev. exfalso. apply (Hnew j'); [|by right].
      unfold dict_keys in *. change (j' ∈ fst <$> reverse (renamed j inner)) in Hrev.
      by rewrite fmap_reverse, elem_of_reverse in Hrev.
    + intros n Hn. specialize (Hnames n). rewrite not_elem_of_cons in Hnames.
      apply Hnames. unfold dict_keys. rewrite map_app. apply elem_of_app. by right.
    + exists d'. split.
      { simpl. unfold mbind, se_bind. by rewrite flatten_key_run, Hdj. }
      intros q. rewrite Hget, Hd1, synth_cons, Hpj, reverse_app, dict_get_app.
      destruct (decide (q ∈ ks)) as [Hq|Hq].
      * by rewrite decide_True by (by right).
      * destruct (String.eqb_spec j q) as [->|Hne].
        -- rewrite decide_True by left.
           destruct (dict_get (reverse (synth params ks)) q) as [v|] eqn:Hrev; [|done].
           apply dict_get_Some_key in Hrev. exfalso.
           specialize (Hnames q). apply Hnames; [|left].
           unfold dict_keys in *. rewrite map_app. apply elem_of_app. right.
           change (q ∈ fst <$> reverse (synth params ks)) in Hrev.
           by rewrite fmap_reverse, elem_of_reverse in Hrev.
        -- rewrite decide_False;
             [by destruct (dict_get (reverse (synth params ks)) q)|].
           rewrite not_elem_of_cons. by split.
Qed.

Lemma nested_keys_elem (d : dict) (k : string) :
  k ∈ nested_keys d ↔ ∃ inner, (k, VDict inner) ∈ d.
Proof.
  unfold nested_keys. induction d as [|[k' v'] d IH]; simpl.
  - split; [by intros ?%elem_of_nil|by intros [? ?%elem_of_nil]].
  - destruct v' as [| | | | | | |inner']; simpl;
      try (rewrite IH; split; intros [inner H]; exists inner;
           [by right|by apply elem_of_cons in H as [?|?]]).
    rewrite elem_of_cons, IH. split.
    + intros [->|[inner H]]; [exists inner'; left|exists inner; by right].
    + intros [inner [[= -> ->]|H]%elem_of_cons]; [by left|right; by exists inner].
Qed.

Lemma nested_keys_NoDup (d : dict) :
  NoDup (dict_keys d) → NoDup (nested_keys d).
Proof.
  unfold nested_keys, dict_keys. induction d as [|[k v] d IH]; simpl; [done|].
  intros [Hk Hnd]%NoDup_cons. destruct (is_dict v); simpl; [|auto].
  apply NoDup_cons. split; [|auto]. intros Hin. apply Hk.
  apply list_elem_of_In, in_map_iff in Hin as ([k' v'] & Heq & Hin).
  apply filter_In in Hin as [Hin _]. simpl in Heq. subst.
  apply (elem_dict_keys d k v'). by apply list_elem_of_In.
Qed.

(** The whole of lines 91-94 on a collision-free mapping. *)
Lemma flatten_collision_free (params : dict) :
  NoDup (dict_keys params) →
  (∀ n, n ∈ synth_names params → n ∉ dict_keys params) →
  ∃ d', flatten params = (Ok (), d') ∧ NoDup (dict_keys d') ∧
        ∀ q, dict_get d' q
             = if decide (q ∈ nested_keys params) then None
               else match dict_get (reverse (synth params (nested_keys params))) q with
                    | Some v => Some v
                    | None => dict_get params q
                    end.
Proof.
  intros Hnd Hfresh.
  destruct (flatten_loop params (nested_keys params) params) as (d' & Hrun & Hget).
  - by apply nested_keys_NoDup.
  - intros j [inner Hin]%nested_keys_elem. exists inner.
    split; by apply dict_get_unique.
  - intros n Hn Hks. apply (Hfresh n Hn).
    apply nested_keys_elem in Hks as [inner Hin]. by eapply elem_dict_keys.
  - exists d'. split; [done|]. split; [|done].
    pose proof (for_each_flatten_key_NoDup (nested_keys params) params Hnd) as H.
    by rewrite Hrun in H.
Qed.

Lemma py_lower_bool (b : bool) :
  VStr (py_lower (str_of_bool b)) = conv_bool (VBool b).
Proof. by destruct b. Qed.

Lemma bool_strings_keys (d : dict) (k : string) :
  k ∈ dict_keys (bool_strings d) → k ∈ dict_keys d.
Proof.
  unfold bool_strings, dict_keys. induction d as [|[k' v'] d IH]; simpl; [done|].
  destruct v'; simpl; try (intros ?; right; by apply IH).
  intros [->|?]%elem_of_cons; [left|right; by apply IH].
Qed.

(** The comprehension of lines 98-100 holds the text of each boolean. *)
Lemma dict_get_bool_strings (d : dict) (q : string) :
  NoDup (dict_keys d) →
  dict_get (bool_strings d) q
  = match dict_get d q with
    | Some (VBool b) => Some (conv_bool (VBool b))
    | _ => None
    end.
Proof.
  unfold bool_strings. induction d as [|[k v] d IH]; simpl; [done|].
  intros [Hk Hnd]%NoDup_cons. specialize (IH Hnd).
  destruct (String.eqb_spec k q) as [->|Hne].
  - assert (dict_get (bool_strings d) q = None) as Hq.
    { apply dict_get_None. intros Hin. by apply Hk, bool_strings_keys. }
    unfold bool_strings in Hq.
    destruct v; simpl; rewrite ?String.eqb_refl, ?Hq; try done.
    by rewrite py_lower_bool.
  - destruct v; simpl; try done.
    apply String.eqb_neq in Hne. by rewrite Hne.
Qed.

Lemma bool_strings_NoDup (d : dict) :
  NoDup (dict_keys d) → NoDup (dict_keys (bool_strings d)).
Proof.
  unfold bool_strings. induction d as [|[k v] d IH]; simpl; [done|].
  intros [Hk Hnd]%NoDup_cons.
  destruct v; simpl; auto.
  apply NoDup_cons. split; [|auto]. intros Hin. by apply Hk, bool_strings_keys.
Qed.

(** Lines 97-100 replace each boolean by its text and leave the rest. *)
Lemma stringify_bools_get (d : dict) (q : string) :
  NoDup (dict_keys d) →
  dict_get (stringify_bools d).2 q = conv_bool <$> dict_get d q.
Proof.
  intros Hnd. simpl. rewrite dict_get_update, dict_get_reverse
    by (by apply bool_strings_NoDup).
  rewrite dict_get_bool_strings by done.
  by destruct (dict_get d q) as [[]|].
Qed.

Lemma encode_params_run (d d1 : dict) :
  flatten d = (Ok (), d1) →
  encode_params d = (Ok (), dict_update d1 (bool_strings d1)).
Proof. intros H. unfold encode_params, mbind, se_bind. by rewrite H. Qed.

Lemma synth_elem (params : dict) (ks : list string) (j : string)
    (inner : dict) (a : string) (va : value) :
  j ∈ ks → dict_get params j = Some (VDict inner) → (a, va) ∈ inner →
  (nested_name j a, va) ∈ synth params ks.
Proof.
  intros Hj Hp Ha. unfold synth. apply list_elem_of_In, in_flat_map.
  exists j. split; [by apply list_elem_of_In|]. rewrite Hp.
  apply list_elem_of_In. unfold renamed.
  apply (list_elem_of_fmap_2 (λ kv : string * value, (nested_name j kv.1, kv.2))
           inner (a, va)). done.
Qed.

Lemma collision_free_parts (params : dict) :
  collision_free params →
  NoDup (dict_keys params) ∧ NoDup (synth_names params) ∧
  (∀ n, n ∈ synth_names params → n ∉ dict_keys params).
Proof.
  intros (Hk & Hdisj & Hs)%NoDup_app. split; [done|]. split; [done|].
  intros n Hn Hin. by apply (Hdisj n).
Qed.

(** The encoder on a collision-free mapping: it completes, no key that held
    a nested mapping is left, every other key holds its value, and every
    name [k[a]] holds the inner value, booleans as text. *)
Lemma encode_params_lookup (params : dict) :
  collision_free params →
  ∃ out, encode_params params = (Ok (), out) ∧
    (∀ k, k ∈ nested_keys params → dict_get out k = None) ∧
    (∀ k v, dict_get params k = Some v → is_dict v = false →
            dict_get out k = Some (conv_bool v)) ∧
    (∀ k inner a va, dict_get params k = Some (VDict inner) →
            dict_get inner a = Some va →
            dict_get out (nested_name k a) = Some (conv_bool va)).
Proof.
  intros (Hnd & Hnames & Hfresh)%collision_free_parts.
  destruct (flatten_collision_free params Hnd Hfresh) as (d1 & Hrun & Hnd1 & Hget).
  exists (dict_update d1 (bool_strings d1)).
  split; [by apply encode_params_run|].
  pose proof (λ q, stringify_bools_get d1 q Hnd1) as Hout. simpl in Hout.
  assert (∀ q, q ∈ dict_keys params →
               dict_get (reverse (synth params (nested_keys params))) q = None) as Hnot.
  { intros q Hq. rewrite dict_get_reverse by done. apply dict_get_None.
    intros Hin. by apply (Hfresh q). }
  split; [|split].
  - intros k Hk. by rewrite Hout, Hget, decide_True.
  - intros k v Hk Hv. rewrite Hout, Hget, decide_False, Hnot, Hk; [done| |].
    + by eapply dict_get_Some_key.
    + intros [inner Hin]%nested_keys_elem.
      rewrite (dict_get_unique _ _ _ Hnd Hin) in Hk. by injection Hk as <-.
  - intros k inner a va Hk Ha.
    assert ((nested_name k a, va) ∈ synth params (nested_keys params)) as Hin.
    { apply (synth_elem params _ k inner); [|done|by apply dict_get_elem].
      apply nested_keys_elem. exists inner. by apply dict_get_elem. }
    assert (nested_name k a ∉ nested_keys params) as Hnk.
    { intros [inner' Hin']%nested_keys_elem.
      apply (Hfresh (nested_name k a)); by eapply elem_dict_keys. }
    rewrite Hout, Hget, decide_False, dict_get_reverse by done.
    by rewrite (dict_get_unique _ _ _ Hnames Hin).
Qed.

(** C2 as worded does not hold: with the parameters of
    [test_param_conversion], flattening ['metadata'] does not leave ['tf']
    with its value [True]. *)
Lemma flattening_keeps_other_keys_fails : ¬ flattening_keeps_other_keys.
Proof.
  intros H.
  destruct (H charge_params [("md1", VStr "hi"); ("md2", VStr "other")]
              (encode_params charge_params).2 "metadata")
    as (_ & _ & Hother); [reflexivity|by repeat constructor|reflexivity|].
  specialize (Hother "tf" (VBool true)). vm_compute in Hother.
  by specialize (Hother ltac:(done) eq_refl).
Qed.

(** C2. On a mapping whose keys and synthesized names [k[a]] are pairwise
    distinct, with a nested mapping under [k]: the encoder completes, the
    result has no key [k], each [k[a]] holds the inner value when this is
    not a boolean, and every key of the input whose value is neither a
    nested mapping nor a boolean holds that value. *)
Theorem flatten_nested_mapping (params inner : dict) (k : string) :
  collision_free params →
  dict_get params k = Some (VDict inner) →
  ∃ out, encode_params params = (Ok (), out) ∧
    dict_get out k = None ∧
    (∀ a va, dict_get inner a = Some va → is_bool va = false →
             dict_get out (nested_name k a) = Some va) ∧
    (∀ k' v, dict_get params k' = Some v → is_dict v = false →
             is_bool v = false → dict_get out k' = Some v).
Proof.
  intros Hfree Hk.
  destruct (encode_params_lookup params Hfree) as (out & Hrun & Hgone & Htop & Hin).
  exists out. split; [done|]. split; [|split].
  - apply Hgone, nested_keys_elem. exists inner. by apply dict_get_elem.
  - intros a va Ha Hb. rewrite (Hin k inner a va Hk Ha). by destruct va.
  - intros k' v Hk' Hd Hb. rewrite (Htop k' v Hk' Hd). by destruct v.
Qed.

Lemma flatten_nested_mapping_witness :
  ∃ out, encode_params charge_params = (Ok (), out) ∧
    dict_get out "metadata" = None ∧
    dict_get out "metadata[md1]" = Some (VStr "hi") ∧
    dict_get out "amount" = Some (VInt 103).
Proof.
  destruct (flatten_nested_mapping charge_params
              [("md1", VStr "hi"); ("md2", VStr "other")] "metadata")
    as (out & Hrun & Hgone & Hin & Htop).
  - apply (bool_decide_unpack _). vm_compute. reflexivity.
  - reflexivity.
  - exists out. split; [done|]. split; [done|]. split.
    + by apply (Hin "md1").
    + by apply Htop.
Defined.

(** A round of the outer loop that completes keeps every entry settled. *)
Lemma flatten_key_settled (params : dict) (j : string) (ks : list string)
    (d d' : dict) :
  Forall (λ kv, one_level kv.2 = true) params →
  Forall (settled params (j :: ks)) d →
  flatten_key j d = (Ok (), d') →
  Forall (settled params ks) d'.
Proof.
  intros Hlevel Hd. rewrite flatten_key_run.
  destruct (dict_get d j) as [[| | | | | | |inner]|] eqn:Hj; try done.
  intros [= <-].
  assert ((j, VDict inner) ∈ params ∧ Forall (λ kv, is_scalar kv.2 = true) inner)
    as [Hin Hinner].
  { apply dict_get_elem in Hj. rewrite Forall_forall in Hd.
    destruct (Hd _ Hj) as [[Hs _]|(_ & Hin & _)]; [done|]. split; [done|].
    rewrite Forall_forall in Hlevel. specialize (Hlevel _ Hin). simpl in Hlevel.
    apply Forall_forall. intros kv Hkv. rewrite forallb_forall in Hlevel.
    apply Hlevel. by apply list_elem_of_In. }
  apply Forall_forall. intros kv [Hkv Hne]%dict_remove_elem.
  apply dict_update_elem in Hkv as [Hkv|Hkv].
  - rewrite Forall_forall in Hd.
    destruct (Hd _ Hkv) as [?|(Hks & ? & ?)]; [by left|right].
    apply elem_of_cons in Hks as [?|?]; done.
  - left. unfold renamed in Hkv.
    apply list_elem_of_fmap in Hkv as ([a va] & -> & Ha). simpl.
    rewrite Forall_forall in Hinner. split; [exact (Hinner _ Ha)|].
    right. by exists j, inner, a.
Qed.

Lemma for_each_flatten_key_settled (params : dict) (ks : list string)
    (d d' : dict) :
  Forall (λ kv, one_level kv.2 = true) params →
  Forall (settled params ks) d →
  for_each ks flatten_key d = (Ok (), d') →
  Forall (λ kv, source params kv.2) d'.
Proof.
  intros Hlevel. revert d. induction ks as [|j ks IH]; intros d Hd; simpl.
  - intros [= <-]. eapply Forall_impl; [exact Hd|].
    intros kv [?|(?%elem_of_nil & _)]; done.
  - unfold mbind, se_bind.
    destruct (flatten_key j d) as [[[]|e] d1] eqn:Hj; [|done].
    apply IH. by eapply flatten_key_settled.
Qed.

Lemma settled_initially (params : dict) :
  Forall (λ kv, one_level kv.2 = true) params →
  Forall (settled params (nested_keys params)) params.
Proof.
  intros Hlevel. apply Forall_forall. intros [k v] Hin.
  rewrite Forall_forall in Hlevel. specialize (Hlevel _ Hin). simpl in Hlevel.
  destruct (is_dict v) eqn:Hv.
  - right. split; [|done]. apply nested_keys_elem.
    destruct v; try done. by eexists.
  - left. split; [by destruct v|]. left. by exists k.
Qed.

Lemma conv_bool_scalar (v : value) :
  is_scalar v = true →
  is_dict (conv_bool v) = false ∧ is_bool (conv_bool v) = false.
Proof. by destruct v. Qed.

(** C3 as worded does not hold: a nested mapping inside a nested mapping is
    sent on as it is. *)
Lemma encoding_always_flat_fails : ¬ encoding_always_flat.
Proof.
  intros H.
  specialize (H [("a", VDict [("b", VDict [("c", VInt 1)])])]
                [("a[b]", VDict [("c", VInt 1)])]).
  assert (Forall (λ kv : string * value, is_dict kv.2 = false ∧ is_bool kv.2 = false)
            [("a[b]", VDict [("c", VInt 1)])]) as Hflat.
  { apply H; [|repeat constructor; by right|reflexivity].
    apply (bool_decide_unpack _). vm_compute. reflexivity. }
  apply Forall_cons in Hflat as [[? _] _]. done.
Qed.

(** C3. On a mapping of strings, numbers, booleans and nested mappings of
    such scalars: what the encoder produces when it completes has no
    nested-mapping value and no boolean value, each value being a scalar of
    the input with a boolean replaced by ["true"] or ["false"] and any other
    value as it was; the encoder completes when no synthesized name is a
    key of the input; and when the keys and the synthesized names are
    pairwise distinct each scalar is found under its key or its name
    [k[a]]. *)
Theorem encoded_params_flat (params : dict) :
  NoDup (dict_keys params) →
  Forall (λ kv, one_level kv.2 = true) params →
  (∀ out, encode_params params = (Ok (), out) →
     Forall (λ kv, is_dict kv.2 = false ∧ is_bool kv.2 = false ∧
                   ∃ v0, source params v0 ∧ kv.2 = conv_bool v0) out) ∧
  ((∀ n, n ∈ synth_names params → n ∉ dict_keys params) →
     ∃ out, encode_params params = (Ok (), out)) ∧
  (collision_free params →
     ∃ out, encode_params params = (Ok (), out) ∧
       (∀ k v, dict_get params k = Some v → is_dict v = false →
               dict_get out k = Some (conv_bool v)) ∧
       (∀ k inner a va, dict_get params k = Some (VDict inner) →
               dict_get inner a = Some va →
               dict_get out (nested_name k a) = Some (conv_bool va))).
Proof.
  intros Hnd Hlevel. split; [|split].
  - intros out. unfold encode_params, mbind, se_bind.
    destruct (flatten params) as [[[]|e] d1] eqn:Hflat; [|done].
    intros Hout.
    assert (out = (stringify_bools d1).2) as -> by (by rewrite Hout).
    assert (NoDup (dict_keys d1)) as Hnd1.
    { pose proof (for_each_flatten_key_NoDup (nested_keys params) params Hnd) as H.
      unfold flatten in Hflat. by rewrite Hflat in H. }
    pose proof (for_each_flatten_key_settled params _ params d1 Hlevel
                  (settled_initially params Hlevel) Hflat) as Hsrc.
    apply Forall_forall. intros [q v] Hin.
    assert (dict_get (stringify_bools d1).2 q = Some v) as Hq.
    { apply dict_get_unique; [|done]. simpl. by apply dict_update_NoDup. }
    rewrite stringify_bools_get in Hq by done.
    destruct (dict_get d1 q) as [v0|] eqn:Hq0; [|done].
    injection Hq as <-. simpl.
    rewrite Forall_forall in Hsrc.
    pose proof (Hsrc _ (dict_get_elem _ _ _ Hq0)) as Hv0. simpl in Hv0.
    destruct (conv_bool_scalar v0) as [? ?]; [by destruct Hv0|].
    split; [done|]. split; [done|]. by exists v0.
  - intros Hfresh.
    destruct (flatten_collision_free params Hnd Hfresh) as (d1 & Hrun & _).
    eexists. by apply encode_params_run.
  - intros Hfree.
    destruct (encode_params_lookup params Hfree) as (out & Hrun & _ & Htop & Hin).
    by exists out.
Qed.

Lemma encoded_params_flat_witness :
  Forall (λ kv, is_dict kv.2 = false ∧ is_bool kv.2 = false ∧
                ∃ v0, source charge_params v0 ∧ kv.2 = conv_bool v0)
    [("amount", VInt 103); ("currency", VStr "usd"); ("k", VStr "1");
     ("j", VInt 2); ("tf", VStr "true"); ("metadata[md1]", VStr "hi");
     ("metadata[md2]", VStr "other")].
Proof.
  destruct (encoded_params_flat charge_params) as [Hflat _].
  - apply (bool_decide_unpack _). vm_compute. exact I.
  - apply (bool_decide_unpack _). vm_compute. exact I.
  - apply Hflat. reflexivity.
Defined.

(** ** The store: what [_req] and the endpoint methods change *)

Section store_properties.
Variable py_repr : value → string.

Lemma se_bind_run {S A B} (m : SE S A) (f : A → SE S B) (s : S) :
  (m ≫= f) s
  = match m s with
    | (Ok a, s') => f a s'
    | (Raise e, s') => (Raise e, s')
    end.
Proof. reflexivity. Qed.

Lemma touches_only_ret {A} (p : loc) (a : A) : touches_only p (mret a).
Proof. by intros w q _. Qed.

Lemma touches_only_lift {A} (p : loc) (r : result A) :
  touches_only p (se_lift r).
Proof. by intros w q _. Qed.

Lemma touches_only_bind {A B} (p : loc) (m : SE world A) (f : A → SE world B) :
  touches_only p m → (∀ a, touches_only p (f a)) → touches_only p (m ≫= f).
Proof.
  intros Hm Hf w q Hq. rewrite se_bind_run. specialize (Hm w q Hq).
  destruct (m w) as [[a|e] w1]; simpl in *; [|done].
  by rewrite (Hf a w1 q Hq).
Qed.

Lemma touches_only_on_object {A} (p : loc) (m : SE dict A) :
  touches_only p (on_object p m).
Proof.
  intros w q Hq. unfold on_object. destruct (heap w !! p) as [d|]; [|done].
  destruct (m d) as [r d']. simpl. by rewrite lookup_insert_ne.
Qed.

Lemma touches_only_session_request (p : loc) (self : Client)
    (method url : string) (params : loc) (headers : list (string * string)) :
  touches_only p (session_request self method url params headers).
Proof.
  intros w q _. unfold session_request. by destruct (heap w !! params).
Qed.

(** [_req] past its first two lines, with [params] bound to the object at
    [p]. *)
Lemma touches_only_req_from (self : Client) (method page : string) (p : loc) :
  touches_only p
    (on_object p encode_params;;
     r ← session_request self (py_upper method)
           (_url self +:+ "/" +:+ py_lstrip "/" page) p
           [("Content-Type", "application/x-www-form-urlencoded");
            ("Stripe-Version", _version self)];
     se_lift (handle_response py_repr method r)).
Proof.
  apply touches_only_bind; [apply touches_only_on_object|]. intros _.
  apply touches_only_bind; [apply touches_only_session_request|]. intros r.
  apply touches_only_lift.
Qed.

Lemma touches_only_req (self : Client) (method page : string) (p : loc) :
  touches_only p (_req py_repr self method page (Some p)).
Proof. exact (touches_only_req_from self method page p). Qed.

Lemma preserving_ret {A} (a : A) : preserving (mret a : SE world A).
Proof. by intros w q d H. Qed.

Lemma preserving_lift {A} (r : result A) : preserving (se_lift r : SE world A).
Proof. by intros w q d H. Qed.

Lemma preserving_bind {A B} (m : SE world A) (f : A → SE world B) :
  preserving m → (∀ a, preserving (f a)) → preserving (m ≫= f).
Proof.
  intros Hm Hf w q d Hq. rewrite se_bind_run. specialize (Hm w q d Hq).
  destruct (m w) as [[a|e] w1]; simpl in *; [|done].
  by apply Hf.
Qed.

(** A new object, then work on that object only. *)
Lemma preserving_new_dict {B} (d0 : dict) (f : loc → SE world B) :
  (∀ p, touches_only p (f p)) → preserving (new_dict d0 ≫= f).
Proof.
  intros Hf w q d Hq. rewrite se_bind_run. simpl.
  assert (q ≠ fresh (dom (heap w))) as Hne.
  { intros ->. apply (is_fresh (dom (heap w))). apply elem_of_dom. by eexists. }
  rewrite (Hf _ _ q Hne). simpl. by rewrite lookup_insert_ne.
Qed.

Lemma preserving_req_None (self : Client) (method page : string) :
  preserving (_req py_repr self method page None).
Proof.
  apply (preserving_new_dict []). intros p.
  exact (touches_only_req_from self method page p).
Qed.

(** The mapping [_req] is given holds, afterwards, what the encoder made
    of it, also when the encoder or anything after it raised. *)
Lemma req_encodes_in_place (self : Client) (method page : string) (p : loc)
    (w : world) (d : dict) :
  heap w !! p = Some d →
  heap (_req py_repr self method page (Some p) w).2
  = <[p := (encode_params d).2]> (heap w).
Proof.
  intros Hp.
  cbv [_req mbind se_bind mret se_ret on_object session_request se_lift].
  rewrite Hp.
  destruct (encode_params d) as [[[]|e] d']; simpl; [|done].
  rewrite lookup_insert_eq. by destruct (_session self _).
Qed.

Ltac frame_step :=
  first
    [ apply touches_only_req
    | apply touches_only_ret
    | apply touches_only_lift
    | apply touches_only_on_object
    | apply touches_only_bind; [|intros ?]
    | apply preserving_req_None
    | apply preserving_ret
    | apply preserving_lift
    | apply preserving_new_dict; intros ?
    | apply preserving_bind; [|intros ?] ].

(** No endpoint method changes an object that was there before the call. *)
Lemma run_call_preserving (self : Client) (c : call) :
  preserving (run_call py_repr self c).
Proof.
  destruct c; simpl;
    unfold create_charge, retrieve_charge, update_charge, capture_charge,
      list_charges, create_customer, retrieve_customer, update_customer,
      delete_customer, list_customers, create_card, delete_card, update_card,
      create_refund, retrieve_refund, update_refund, list_refunds,
      create_source, retrieve_source;
    repeat frame_step.
  destruct metadata; repeat frame_step.
Qed.

(** A call of [_req] whose encoding completes and whose request is
    answered: the request carries the encoded mapping, and the result is
    what [handle_response] makes of the answer. *)
Lemma req_result (self : Client) (method page : string) (p : loc) (w : world)
    (d d' : dict) (r : response) :
  let rq := mk_request (py_upper method)
              (_url self +:+ "/" +:+ py_lstrip "/" page) d' (_auth self)
              [("Content-Type", "application/x-www-form-urlencoded");
               ("Stripe-Version", _version self)] in
  heap w !! p = Some d →
  encode_params d = (Ok (), d') →
  _session self rq = Ok r →
  _req py_repr self method page (Some p) w
  = (handle_response py_repr method r,
     mk_world (<[p := d']> (heap w)) (sent w ++ [rq])).
Proof.
  intros rq Hp Henc Hr.
  cbv [_req mbind se_bind mret se_ret on_object session_request se_lift].
  rewrite Hp, Henc. simpl. rewrite lookup_insert_eq. fold rq. by rewrite Hr.
Qed.

(** The same with [params=None]: the request carries no parameter. *)
Lemma req_None_result (self : Client) (method page : string) (w : world)
    (r : response) :
  let rq := mk_request (py_upper method)
              (_url self +:+ "/" +:+ py_lstrip "/" page) [] (_auth self)
              [("Content-Type", "application/x-www-form-urlencoded");
               ("Stripe-Version", _version self)] in
  _session self rq = Ok r →
  (_req py_repr self method page None w).1 = handle_response py_repr method r ∧
  sent (_req py_repr self method page None w).2 = sent w ++ [rq].
Proof.
  intros rq Hr.
  cbv [_req mbind se_bind mret se_ret on_object session_request se_lift new_dict].
  simpl. rewrite lookup_insert_eq. simpl. rewrite lookup_insert_eq.
  fold rq. by rewrite Hr.
Qed.

(** C9. [_req] encodes in place: the mapping object it is given holds the
    encoder's result afterwards, and no other object changes.  The endpoint
    methods hand [_req] a mapping they have built themselves, so a call of
    an endpoint method changes no object that existed before it. *)
Theorem encoding_in_place (self : Client) :
  (∀ (method page : string) (p : loc) (w : world) (d : dict),
     heap w !! p = Some d →
     heap (_req py_repr self method page (Some p) w).2
     = <[p := (encode_params d).2]> (heap w)) ∧
  (∀ (c : call) (w : world) (q : loc) (d : dict),
     heap w !! q = Some d →
     heap (run_call py_repr self c w).2 !! q = Some d).
Proof.
  split.
  - intros method page p w d. apply req_encodes_in_place.
  - intros c. apply run_call_preserving.
Qed.

End store_properties.

Lemma encoding_in_place_witness :
  heap (_req opaque_repr demo_client "post" "/charges" (Some 0%nat)
          (mk_world {[0%nat := [("tf", VBool true)]]} [])).2 !! 0%nat
  = Some [("tf", VStr "true")] ∧
  heap (run_call opaque_repr demo_client
          (UpdateCharge (VStr "ch_1") [("tf", VBool true)])
          (mk_world {[0%nat := [("tf", VBool true)]]} [])).2 !! 0%nat
  = Some [("tf", VBool true)].
Proof.
  split.
  - rewrite (proj1 (encoding_in_place opaque_repr demo_client)
               "post" "/charges" 0%nat
               (mk_world {[0%nat := [("tf", VBool true)]]} [])
               [("tf", VBool true)] (lookup_singleton_eq _ _)).
    apply lookup_insert_eq.
  - apply (proj2 (encoding_in_place opaque_repr demo_client)).
    apply lookup_singleton_eq.
Defined.

(** C9 as worded does not hold: [_req] called on the mapping [{'tf': True}]
    leaves [{'tf': 'true'}] in that object. *)
Lemma req_leaves_params_unchanged_fails : ¬ req_leaves_params_unchanged.
Proof.
  intros H.
  specialize (H opaque_repr demo_client "post" "/charges" 0%nat
                (mk_world {[0%nat := [("tf", VBool true)]]} [])
                [("tf", VBool true)] (lookup_singleton_eq _ _)).
  rewrite (req_encodes_in_place opaque_repr demo_client "post" "/charges" 0%nat
             _ [("tf", VBool true)] (lookup_singleton_eq _ _)) in H.
  rewrite lookup_insert_eq in H. by vm_compute in H.
Qed.

(** The charge of [test_param_conversion]: the request the session is
    handed, and the store afterwards. *)
Lemma create_charge_example :
  create_charge opaque_repr demo_client (VInt 103) (VStr "usd") charge_kwds
    (mk_world ∅ [])
  = (Ok (VDict [("id", VStr "ch_1"); ("object", VStr "charge")]),
     mk_world
       {[0%nat := [("amount", VInt 103); ("currency", VStr "usd");
                   ("k", VStr "1"); ("j", VInt 2); ("tf", VStr "true");
                   ("metadata[md1]", VStr "hi");
                   ("metadata[md2]", VStr "other")]]}
       [mk_request "POST" "https://api.stripe.com/v1/charges"
          [("amount", VInt 103); ("currency", VStr "usd");
           ("k", VStr "1"); ("j", VInt 2); ("tf", VStr "true");
           ("metadata[md1]", VStr "hi"); ("metadata[md2]", VStr "other")]
          ("secret_key", "")
          [("Content-Type", "application/x-www-form-urlencoded");
           ("Stripe-Version", "2017-02-14")]]).
Proof. by vm_compute. Qed.

(** ** More on the parameter encoder *)

Lemma nested_keys_nil (d : dict) :
  Forall (λ kv, flat kv.2 = true) d → nested_keys d = [].
Proof.
  unfold nested_keys. induction 1 as [|[k v] d Hv _ IH]; simpl; [done|].
  unfold flat in Hv. simpl in Hv. by destruct (is_dict v).
Qed.

Lemma bool_strings_nil (d : dict) :
  Forall (λ kv, flat kv.2 = true) d → bool_strings d = [].
Proof.
  unfold bool_strings. induction 1 as [|[k v] d Hv _ IH]; simpl; [done|].
  unfold flat in Hv. simpl in Hv. by destruct v.
Qed.

Lemma encode_params_flat_id (d : dict) :
  Forall (λ kv, flat kv.2 = true) d → encode_params d = (Ok (), d).
Proof.
  intros Hflat. unfold encode_params, mbind, se_bind, flatten, stringify_bools.
  rewrite (nested_keys_nil d Hflat). simpl.
  by rewrite (bool_strings_nil d Hflat).
Qed.

(** X1. A mapping with no nested mapping and no boolean goes through the
    encoder as it is, entry for entry. *)
Theorem encode_params_flat_unchanged (d : dict) :
  Forall (λ kv, flat kv.2 = true) d → encode_params d = (Ok (), d).
Proof. exact (encode_params_flat_id d). Qed.

Lemma encode_params_flat_unchanged_witness :
  encode_params [("amount", VInt 103); ("currency", VStr "usd"); ("note", VNone)]
  = (Ok (), [("amount", VInt 103); ("currency", VStr "usd"); ("note", VNone)]).
Proof. apply encode_params_flat_unchanged. by repeat constructor. Defined.

(** X2. The encoder keeps the keys of the mapping unique, whether it
    completes or raises. *)
Theorem encode_params_keys_unique (d : dict) :
  NoDup (dict_keys d) → NoDup (dict_keys (encode_params d).2).
Proof.
  intros Hnd. unfold encode_params, mbind, se_bind, flatten.
  pose proof (for_each_flatten_key_NoDup (nested_keys d) d Hnd) as H.
  destruct (for_each (nested_keys d) flatten_key d) as [[[]|e] d1]; [|done].
  simpl in *. by apply dict_update_NoDup.
Qed.

Lemma encode_params_keys_unique_witness :
  NoDup (dict_keys (encode_params
                      [("a", VDict [("b", VInt 5)]); ("a[b]", VDict [("c", VInt 1)])]).2).
Proof.
  apply encode_params_keys_unique.
  apply (bool_decide_unpack _). vm_compute. exact I.
Defined.

(** The outer loop on keys that are all present can only fail on
    [.items()]. *)
Lemma flatten_loop_raises (ks : list string) (d : dict) :
  NoDup ks → (∀ j, j ∈ ks → is_Some (dict_get d j)) →
  (for_each ks flatten_key d).1 = Ok () ∨
  (for_each ks flatten_key d).1 = Raise (AttributeError "items").
Proof.
  revert d. induction ks as [|j ks IH]; intros d Hnd Hks; [by left|].
  apply NoDup_cons in Hnd as [Hj Hnd].
  simpl. unfold mbind, se_bind. rewrite flatten_key_run.
  destruct (Hks j) as [v Hv]; [left|]. rewrite Hv.
  destruct v as [| | | | | | |inner]; try by right.
  apply IH; [done|]. intros j' Hj'.
  rewrite dict_get_remove, dict_get_update.
  destruct (String.eqb_spec j j') as [->|_]; [done|].
  destruct (dict_get (reverse (renamed j inner)) j'); [by eexists|].
  apply Hks. by right.
Qed.

(** X3. On a mapping with unique keys the encoder never raises [KeyError]:
    neither [params[key]] nor [del params[key]] can miss.  It completes, or
    it raises the [AttributeError] of [.items()] on a value that an earlier
    round has replaced. *)
Theorem encode_params_raises (d : dict) :
  NoDup (dict_keys d) →
  (encode_params d).1 = Ok () ∨
  (encode_params d).1 = Raise (AttributeError "items").
Proof.
  intros Hnd. unfold encode_params, mbind, se_bind, flatten.
  destruct (flatten_loop_raises (nested_keys d) d) as [H|H].
  - by apply nested_keys_NoDup.
  - intros j [inner Hin]%nested_keys_elem. exists (VDict inner).
    by apply dict_get_unique.
  - destruct (for_each (nested_keys d) flatten_key d) as [[[]|e] d1]; [by left|done].
  - destruct (for_each (nested_keys d) flatten_key d) as [[[]|e] d1]; [done|].
    simpl in *. by right.
Qed.

Lemma encode_params_raises_witness :
  (encode_params [("a", VDict [("b", VInt 5)]); ("a[b]", VDict [("c", VInt 1)])]).1
  = Ok () ∨
  (encode_params [("a", VDict [("b", VInt 5)]); ("a[b]", VDict [("c", VInt 1)])]).1
  = Raise (AttributeError "items").
Proof.
  apply encode_params_raises.
  apply (bool_decide_unpack _). vm_compute. exact I.
Defined.

(** What the encoder produces from scalars and one-level nested mappings
    holds neither a nested mapping nor a boolean. *)
Lemma encode_params_one_level_flat (params out : dict) :
  NoDup (dict_keys params) →
  Forall (λ kv, one_level kv.2 = true) params →
  encode_params params = (Ok (), out) →
  Forall (λ kv, flat kv.2 = true) out.
Proof.
  intros Hnd Hlevel. unfold encode_params, mbind, se_bind.
  destruct (flatten params) as [[[]|e] d1] eqn:Hflat; [|done].
  intros Hout.
  assert (out = (stringify_bools d1).2) as -> by (by rewrite Hout).
  assert (NoDup (dict_keys d1)) as Hnd1.
  { pose proof (for_each_flatten_key_NoDup (nested_keys params) params Hnd) as H.
    unfold flatten in Hflat. by rewrite Hflat in H. }
  pose proof (for_each_flatten_key_settled params _ params d1 Hlevel
                (settled_initially params Hlevel) Hflat) as Hsrc.
  apply Forall_forall. intros [q v] Hin.
  assert (dict_get (stringify_bools d1).2 q = Some v) as Hq.
  { apply dict_get_unique; [|done]. simpl. by apply dict_update_NoDup. }
  rewrite stringify_bools_get in Hq by done.
  destruct (dict_get d1 q) as [v0|] eqn:Hq0; [|done].
  injection Hq as <-. simpl.
  rewrite Forall_forall in Hsrc.
  destruct (Hsrc _ (dict_get_elem _ _ _ Hq0)) as [Hv0 _]. simpl in Hv0.
  by destruct v0.
Qed.

(** X4. Encoding is idempotent on scalars and one-level nested mappings:
    what the encoder has produced, it leaves as it is when run again (as
    a second [_req] on the same mapping object does). *)
Theorem encode_params_twice (params out : dict) :
  NoDup (dict_keys params) →
  Forall (λ kv, one_level kv.2 = true) params →
  encode_params params = (Ok (), out) →
  encode_params out = (Ok (), out).
Proof.
  intros Hnd Hlevel Hout. apply encode_params_flat_id.
  by eapply encode_params_one_level_flat.
Qed.

Lemma encode_params_twice_witness :
  encode_params
    [("amount", VInt 103); ("currency", VStr "usd"); ("k", VStr "1");
     ("j", VInt 2); ("tf", VStr "true"); ("metadata[md1]", VStr "hi");
     ("metadata[md2]", VStr "other")]
  = (Ok (), [("amount", VInt 103); ("currency", VStr "usd"); ("k", VStr "1");
             ("j", VInt 2); ("tf", VStr "true"); ("metadata[md1]", VStr "hi");
             ("metadata[md2]", VStr "other")]).
Proof.
  apply (encode_params_twice charge_params).
  - apply (bool_decide_unpack _). vm_compute. exact I.
  - apply (bool_decide_unpack _). vm_compute. exact I.
  - reflexivity.
Defined.

(** *** The order of the entries *)

Lemma dict_set_fresh (d : dict) (k : string) (v : value) :
  k ∉ dict_keys d → dict_set d k v = d ++ [(k, v)].
Proof.
  induction d as [|[k' v'] d IH]; simpl; [done|].
  intros [Hne Hk]%not_elem_of_cons.
  destruct (String.eqb_spec k' k) as [->|_]; [done|]. by rewrite IH.
Qed.

Lemma dict_update_fresh (d e : dict) :
  NoDup (dict_keys e) → (∀ n, n ∈ dict_keys e → n ∉ dict_keys d) →
  dict_update d e = d ++ e.
Proof.
  unfold dict_update. revert d. induction e as [|[k v] e IH]; intros d; simpl.
  - intros _ _. by rewrite app_nil_r.
  - intros [Hk Hnd]%NoDup_cons Hfresh.
    rewrite dict_set_fresh by (apply Hfresh; left).
    rewrite IH, <- app_assoc; [done|done|].
    intros n Hn. unfold dict_keys. rewrite map_app. simpl.
    rewrite elem_of_app, list_elem_of_singleton.
    intros [Hd| ->]; [|done]. apply (Hfresh n); [by right|done].
Qed.

Lemma dict_remove_absent (d : dict) (k : string) :
  k ∉ dict_keys d → dict_remove d k = d.
Proof.
  induction d as [|[k' v'] d IH]; simpl; [done|].
  intros [Hne Hk]%not_elem_of_cons.
  destruct (String.eqb_spec k' k) as [->|_]; [done|]. by rewrite IH.
Qed.

Lemma dict_remove_app (d e : dict) (k : string) :
  dict_remove (d ++ e) k = dict_remove d k ++ dict_remove e k.
Proof.
  induction d as [|[k' v'] d IH]; simpl; [done|].
  destruct (String.eqb k' k); [done|]. by rewrite IH.
Qed.

Lemma dict_remove_filter (d : dict) (k : string) :
  dict_remove d k = List.filter (λ kv, negb (String.eqb kv.1 k)) d.
Proof.
  induction d as [|[k' v'] d IH]; simpl; [done|].
  destruct (String.eqb k' k); simpl; by rewrite IH.
Qed.

Lemma dict_remove_keys_sublist (d : dict) (k : string) :
  dict_keys (dict_remove d k) `sublist_of` dict_keys d.
Proof.
  induction d as [|[k' v'] d IH]; simpl; [done|].
  destruct (String.eqb k' k); simpl; [by apply sublist_cons|by apply sublist_skip].
Qed.

Lemma fold_remove_app (ks : list string) (d e : dict) :
  (∀ j, j ∈ ks → j ∉ dict_keys e) →
  fold_left dict_remove ks (d ++ e) = fold_left dict_remove ks d ++ e.
Proof.
  revert d. induction ks as [|j ks IH]; intros d Hks; simpl; [done|].
  rewrite dict_remove_app, (dict_remove_absent e j) by (apply Hks; left).
  apply IH. intros j' Hj'. apply Hks. by right.
Qed.

Lemma fold_remove_filter (ks : list string) (d : dict) :
  fold_left dict_remove ks d
  = List.filter (λ kv, negb (existsb (String.eqb kv.1) ks)) d.
Proof.
  revert d. induction ks as [|j ks IH]; intros d; simpl.
  - induction d as [|kv d IHd]; simpl; [done|]. by rewrite <- IHd.
  - rewrite IH, dict_remove_filter. induction d as [|kv d IHd]; simpl; [done|].
    destruct (String.eqb kv.1 j); simpl; [done|].
    destruct (existsb (String.eqb kv.1) ks); simpl; [done|]. by rewrite IHd.
Qed.

(** The outer loop when nothing collides: the keys of the nested mappings
    are taken out and the renamed entries are appended, in order. *)
Lemma flatten_loop_list (params : dict) (ks : list string) (d : dict) :
  NoDup ks →
  (∀ j, j ∈ ks → ∃ inner, dict_get params j = Some (VDict inner) ∧
                           dict_get d j = Some (VDict inner)) →
  NoDup (dict_keys d ++ dict_keys (synth params ks)) →
  for_each ks flatten_key d
  = (Ok (), fold_left dict_remove ks d ++ synth params ks).
Proof.
  revert d. induction ks as [|j ks IH]; intros d Hnd Hks Hfree.
  - simpl. by rewrite app_nil_r.
  - apply NoDup_cons in Hnd as [Hj Hnd].
    destruct (Hks j) as (inner & Hpj & Hdj); [left|].
    rewrite synth_cons, Hpj in *.
    unfold dict_keys in Hfree. rewrite map_app in Hfree.
    fold (dict_keys (renamed j inner)) (dict_keys (synth params ks)) (dict_keys d)
      in Hfree.
    apply NoDup_app in Hfree as (Hd & Hdisj & Hnames).
    apply NoDup_app in Hnames as (HR & HRdisj & Hrest).
    assert (∀ n, n ∈ dict_keys (renamed j inner) → n ∉ dict_keys d) as HRd.
    { intros n Hn Hin. apply (Hdisj n Hin), elem_of_app. by left. }
    assert (dict_remove (dict_update d (renamed j inner)) j
            = dict_remove d j ++ renamed j inner) as Hd1.
    { rewrite dict_update_fresh, dict_remove_app by done.
      rewrite (dict_remove_absent (renamed j inner)); [done|].
      intros Hin. apply (HRd j Hin). by eapply dict_get_Some_key. }
    simpl. unfold mbind, se_bind. rewrite flatten_key_run, Hdj, Hd1.
    rewrite IH.
    + rewrite fold_remove_app, <- app_assoc; [done|].
      intros j' Hj' Hin. destruct (Hks j') as (inner' & _ & Hdj'); [by right|].
      apply (HRd j' Hin). by eapply dict_get_Some_key.
    + done.
    + intros j' Hj'. destruct (Hks j') as (inner' & Hpj' & Hdj'); [by right|].
      exists inner'. split; [done|].
      rewrite dict_get_app, dict_get_remove.
      destruct (String.eqb_spec j j') as [->|_]; [done|]. by rewrite Hdj'.
    + unfold dict_keys at 1. rewrite map_app.
      fold (dict_keys (dict_remove d j)) (dict_keys (renamed j inner)).
      rewrite <- app_assoc. apply NoDup_app. split; [|split].
      * eapply sublist_NoDup; [exact Hd|apply dict_remove_keys_sublist].
      * intros n Hn. apply Hdisj.
        eapply elem_of_sublist; [exact Hn|apply dict_remove_keys_sublist].
      * apply NoDup_app. by split.
Qed.

Lemma dict_update_cons_other (k : string) (v : value) (d e : dict) :
  k ∉ dict_keys e →
  dict_update ((k, v) :: d) e = (k, v) :: dict_update d e.
Proof.
  unfold dict_update. revert d. induction e as [|[k' v'] e IH]; intros d; simpl; [done|].
  intros [Hne Hk]%not_elem_of_cons.
  destruct (String.eqb_spec k k') as [->|_]; [done|]. by apply IH.
Qed.

(** Lines 97-100 change the values in place and nothing else. *)
Lemma stringify_bools_map (d : dict) :
  NoDup (dict_keys d) → dict_update d (bool_strings d) = map conv_entry d.
Proof.
  induction d as [|[k v] d IH]; simpl; [done|].
  intros [Hk Hnd]%NoDup_cons.
  assert (k ∉ dict_keys (bool_strings d)) as Hkb.
  { intros Hin. by apply Hk, bool_strings_keys. }
  destruct v as [|b| | | | | |];
    try (change (bool_strings ((k, _) :: d)) with (bool_strings d);
         rewrite dict_update_cons_other by done; by rewrite IH).
  change (bool_strings ((k, VBool b) :: d))
    with ((k, VStr (py_lower (str_of_bool b))) :: bool_strings d).
  unfold dict_update at 1. simpl. rewrite String.eqb_refl.
  fold (dict_update ((k, VStr (py_lower (str_of_bool b))) :: d) (bool_strings d)).
  rewrite dict_update_cons_other, IH, py_lower_bool by done. done.
Qed.

Lemma nested_keys_filter (params : dict) :
  NoDup (dict_keys params) →
  fold_left dict_remove (nested_keys params) params
  = List.filter (λ kv, negb (is_dict kv.2)) params.
Proof.
  intros Hnd. rewrite fold_remove_filter. apply filter_ext_in.
  intros [k v] Hin%list_elem_of_In. simpl. f_equal.
  destruct (is_dict v) eqn:Hv.
  - apply existsb_exists. exists k. split; [|apply String.eqb_refl].
    apply list_elem_of_In, nested_keys_elem. destruct v; try done. by eexists.
  - apply not_true_is_false. intros (k' & Hk' & Heq)%existsb_exists.
    apply String.eqb_eq in Heq as <-.
    apply list_elem_of_In, nested_keys_elem in Hk' as [inner Hinner].
    pose proof (dict_get_unique _ _ _ Hnd Hinner) as H.
    rewrite (dict_get_unique _ _ _ Hnd Hin) in H. by injection H as ->.
Qed.

Lemma encode_params_list (params : dict) :
  collision_free params →
  encode_params params
  = (Ok (), map conv_entry
              (List.filter (λ kv, negb (is_dict kv.2)) params
               ++ synth params (nested_keys params))).
Proof.
  intros Hfree.
  pose proof (collision_free_parts params Hfree) as (Hnd & _ & _).
  assert (flatten params
          = (Ok (), List.filter (λ kv, negb (is_dict kv.2)) params
                    ++ synth params (nested_keys params))) as Hflat.
  { unfold flatten. rewrite (flatten_loop_list params), nested_keys_filter; try done.
    - by apply nested_keys_NoDup.
    - intros j [inner Hin]%nested_keys_elem. exists inner.
      split; by apply dict_get_unique. }
  rewrite (encode_params_run _ _ Hflat). f_equal.
  apply stringify_bools_map.
  pose proof (for_each_flatten_key_NoDup (nested_keys params) params Hnd) as H.
  unfold flatten in Hflat. by rewrite Hflat in H.
Qed.

(** X5. On a mapping whose keys and synthesized names are pairwise
    distinct, the encoder produces exactly this list: the entries that are
    not nested mappings, in their order, then for each nested mapping in
    order its entries under the names [k[a]]; every boolean as ["true"] or
    ["false"]. *)
Theorem encode_params_order (params : dict) :
  collision_free params →
  encode_params params
  = (Ok (), map conv_entry
              (List.filter (λ kv, negb (is_dict kv.2)) params
               ++ synth params (nested_keys params))).
Proof. exact (encode_params_list params). Qed.

Lemma encode_params_order_witness :
  encode_params charge_params
  = (Ok (), [("amount", VInt 103); ("currency", VStr "usd"); ("k", VStr "1");
             ("j", VInt 2); ("tf", VStr "true"); ("metadata[md1]", VStr "hi");
             ("metadata[md2]", VStr "other")]).
Proof.
  rewrite (encode_params_order charge_params); [reflexivity|].
  apply (bool_decide_unpack _). vm_compute. exact I.
Defined.

(** ** Requests *)

Lemma upper_char_idemp (c : ascii) : upper_char (upper_char c) = upper_char c.
Proof. by destruct c as [[] [] [] [] [] [] [] []]. Qed.

Lemma py_upper_idemp (s : string) : py_upper (py_upper s) = py_upper s.
Proof.
  unfold py_upper. induction s as [|c s IH]; simpl; [done|].
  by rewrite upper_char_idemp, IH.
Qed.

Lemma py_lstrip_idemp (c : ascii) (s : string) :
  py_lstrip c (py_lstrip c s) = py_lstrip c s.
Proof.
  induction s as [|c' s IH]; simpl; [done|].
  destruct (Ascii.eqb c' c) eqn:Hc; [done|]. simpl. by rewrite Hc.
Qed.

Arguments _req : simpl never.
Arguments encode_params : simpl never.

Section request_properties.
Variable py_repr : value → string.

Lemma handle_response_upper (method : string) (r : response) :
  handle_response py_repr (py_upper method) r = handle_response py_repr method r.
Proof. unfold handle_response. by rewrite py_upper_idemp. Qed.

(** [_req] on a mapping object it is given. *)
Lemma req_Some_run (self : Client) (method page : string) (p : loc) (w : world)
    (d : dict) :
  heap w !! p = Some d →
  _req py_repr self method page (Some p) w
  = req_outcome py_repr self method page d p w.
Proof.
  intros Hp. unfold req_outcome.
  cbv [_req mbind se_bind mret se_ret on_object session_request se_lift].
  rewrite Hp.
  destruct (encode_params d) as [[[]|e] d']; simpl; [|done].
  rewrite lookup_insert_eq. by destruct (_session self _).
Qed.

(** A new mapping object, then [_req] on it. *)
Lemma new_dict_req_run (self : Client) (method page : string) (d : dict)
    (w : world) :
  (new_dict d ≫= λ p, _req py_repr self method page (Some p)) w
  = req_outcome py_repr self method page d (fresh (dom (heap w))) w.
Proof.
  rewrite se_bind_run. simpl. rewrite (req_Some_run _ _ _ _ _ d).
  - unfold req_outcome. simpl.
    destruct (encode_params d) as [[[]|e] d']; by rewrite insert_insert_eq.
  - apply lookup_insert_eq.
Qed.

Lemma req_None_run (self : Client) (method page : string) (w : world) :
  _req py_repr self method page None w
  = req_outcome py_repr self method page [] (fresh (dom (heap w))) w.
Proof. exact (new_dict_req_run self method page [] w). Qed.

(** X6. [_req] hands the session at most one request.  When the encoder
    completes it is the request for the upper-cased method and the page
    under the base URL, with the encoded mapping, the credentials and the
    two headers; when the encoder raises, that exception leaves [_req] and
    the session is not called. *)
Theorem req_sends (self : Client) (method page : string) (p : loc) (w : world)
    (d : dict) :
  heap w !! p = Some d →
  ((encode_params d).1 = Ok () →
     sent (_req py_repr self method page (Some p) w).2
     = sent w ++ [mk_request (py_upper method)
                    (_url self +:+ "/" +:+ py_lstrip "/" page)
                    (encode_params d).2 (_auth self)
                    [("Content-Type", "application/x-www-form-urlencoded");
                     ("Stripe-Version", _version self)]]) ∧
  (∀ e, (encode_params d).1 = Raise e →
     (_req py_repr self method page (Some p) w).1 = Raise e ∧
     sent (_req py_repr self method page (Some p) w).2 = sent w).
Proof.
  intros Hp. rewrite (req_Some_run self method page p w d Hp). unfold req_outcome.
  destruct (encode_params d) as [[[]|e] d']; simpl; split; try done.
  by intros e' [= <-].
Qed.

(** X7. The method is taken in any case and the page with any number of
    leading slashes: [_req] behaves the same on the upper-cased method and
    on the page without them. *)
Theorem req_method_and_page (self : Client) (method page : string)
    (params : option loc) (w : world) :
  _req py_repr self (py_upper method) page params w
  = _req py_repr self method page params w ∧
  _req py_repr self method (py_lstrip "/" page) params w
  = _req py_repr self method page params w.
Proof.
  split.
  - cbv [_req mbind se_bind mret se_ret on_object session_request se_lift].
    rewrite py_upper_idemp.
    destruct params as [p|]; simpl.
    + destruct (heap w !! p) as [d|]; [|done].
      destruct (encode_params d) as [[[]|e] d']; [|done]. simpl.
      destruct (_ !! p); [|done].
      destruct (_session self _); [|done]. by rewrite handle_response_upper.
    + destruct (_ !! _) as [d|]; [|done].
      destruct (encode_params d) as [[[]|e] d']; [|done]. simpl.
      destruct (_ !! _); [|done].
      destruct (_session self _); [|done]. by rewrite handle_response_upper.
  - cbv [_req]. by rewrite py_lstrip_idemp.
Qed.

(** The pages the endpoint methods format. *)
Lemma page_charges (id : value) :
  py_mod py_repr "/charges/%s" [id] = Ok ("/charges/" +:+ py_str py_repr id).
Proof. simpl. by rewrite string_app_nil_r. Qed.

Lemma page_capture (id : value) :
  py_mod py_repr "/charges/%s/capture" [id]
  = Ok ("/charges/" +:+ py_str py_repr id +:+ "/capture").
Proof. reflexivity. Qed.

Lemma page_customers (id : value) :
  py_mod py_repr "/customers/%s" [id] = Ok ("/customers/" +:+ py_str py_repr id).
Proof. simpl. by rewrite string_app_nil_r. Qed.

Lemma page_customer_sources (id : value) :
  py_mod py_repr "/customers/%s/sources" [id]
  = Ok ("/customers/" +:+ py_str py_repr id +:+ "/sources").
Proof. reflexivity. Qed.

Lemma page_customer_source (id source_id : value) :
  py_mod py_repr "/customers/%s/sources/%s" [id; source_id]
  = Ok ("/customers/" +:+ py_str py_repr id +:+ "/sources/"
        +:+ py_str py_repr source_id).
Proof. simpl. by rewrite string_app_nil_r. Qed.

Lemma page_refunds (id : value) :
  py_mod py_repr "/refunds/%s" [id] = Ok ("/refunds/" +:+ py_str py_repr id).
Proof. simpl. by rewrite string_app_nil_r. Qed.

Lemma page_sources (id : value) :
  py_mod py_repr "/sources/%s" [id] = Ok ("/sources/" +:+ py_str py_repr id).
Proof. simpl. by rewrite string_app_nil_r. Qed.

Lemma map_req_outcome (self : Client) (method page : string) (d : dict)
    (p : loc) (w : world) (f : value → value) :
  (∀ v, f v = v) →
  (f <$> (req_outcome py_repr self method page d p w).1,
   (req_outcome py_repr self method page d p w).2)
  = req_outcome py_repr self method page d p w.
Proof.
  intros Hf. destruct (req_outcome py_repr self method page d p w) as [[v|e] w'];
    simpl; [by rewrite Hf|done].
Qed.

(** A new mapping object, an edit of it that completes, then [_req]. *)
Lemma new_dict_edit_req_run (self : Client) (method page : string)
    (d0 d1 : dict) (m : SE dict unit) (w : world) :
  m d0 = (Ok (), d1) →
  (new_dict d0 ≫= λ p, on_object p m ≫= λ _, _req py_repr self method page (Some p)) w
  = req_outcome py_repr self method page d1 (fresh (dom (heap w))) w.
Proof.
  intros Hm. rewrite se_bind_run. simpl. rewrite se_bind_run.
  unfold on_object. simpl. rewrite lookup_insert_eq, Hm. simpl.
  rewrite (req_Some_run _ _ _ _ _ d1) by apply lookup_insert_eq.
  unfold req_outcome. simpl.
  destruct (encode_params d1) as [[[]|e] d']; by rewrite !insert_insert_eq.
Qed.

(** [await self._req('delete', page)] and no [return]. *)
Lemma req_None_dropped_run (self : Client) (method page : string) (w : world) :
  (_req py_repr self method page None ≫= λ _, mret VNone) w
  = ((λ _, VNone) <$>
       (req_outcome py_repr self method page [] (fresh (dom (heap w))) w).1,
     (req_outcome py_repr self method page [] (fresh (dom (heap w))) w).2).
Proof.
  rewrite se_bind_run, req_None_run.
  by destruct (req_outcome _ _ _ _ _ _ _) as [[v|e] w'].
Qed.

Ltac run_pages :=
  rewrite ?page_charges, ?page_capture, ?page_customers, ?page_customer_sources,
    ?page_customer_source, ?page_refunds, ?page_sources.

(** Every endpoint method is one [_req] on a mapping of its own: the
    method, page and mapping of [call_verb], [call_page] and
    [call_params]. *)
Lemma run_call_run (self : Client) (c : call) (w : world) :
  run_call py_repr self c w
  = (call_result c <$>
       (req_outcome py_repr self (call_verb c) (call_page py_repr c)
          (call_params c) (fresh (dom (heap w))) w).1,
     (req_outcome py_repr self (call_verb c) (call_page py_repr c)
        (call_params c) (fresh (dom (heap w))) w).2).
Proof.
  destruct c; simpl run_call; simpl call_verb; simpl call_page;
    simpl call_params; simpl call_result.
  all: try (rewrite (map_req_outcome _ _ _ _ _ _ (λ v, v)) by done).
  all: unfold create_charge, retrieve_charge, update_charge, capture_charge,
      list_charges, create_customer, retrieve_customer, update_customer,
      delete_customer, list_customers, create_card, delete_card, update_card,
      create_refund, retrieve_refund, update_refund, list_refunds,
      create_source, retrieve_source.
  all: run_pages.
  all: try exact (new_dict_req_run self _ _ _ w).
  all: try exact (req_None_run self _ _ w).
  - exact (req_None_dropped_run self "delete" _ w).
  - destruct metadata;
      first [ exact (new_dict_req_run self "post" _ [("source", source0)] w)
            | exact (new_dict_edit_req_run self "post" _ [("source", source0)] _
                       (setitem "metadata" _) w eq_refl) ].
  - exact (req_None_dropped_run self "delete" _ w).
  - exact (new_dict_edit_req_run self "post" "/refunds" [("charge", charge_id)] _
             (λ d, (Ok (), dict_update d kwds)) w eq_refl).
Qed.

(** X8. Every endpoint method hands the session at most one request, and
    that request is a GET, POST or DELETE for a URL under the client's base
    URL, with the client's credentials and the [Content-Type] and
    [Stripe-Version] headers. *)
Theorem run_call_requests (self : Client) (c : call) (w : world) :
  sent (run_call py_repr self c w).2 = sent w ∨
  ∃ rq, sent (run_call py_repr self c w).2 = sent w ++ [rq] ∧
        well_addressed self rq.
Proof.
  rewrite run_call_run. simpl. unfold req_outcome.
  destruct (encode_params (call_params c)) as [[[]|e] d']; [right|by left].
  eexists. split; [reflexivity|]. repeat split; simpl.
  - destruct c; simpl; auto.
  - by eexists.
Qed.

(** X9. When the mapping an endpoint method builds holds scalars and
    one-level nested mappings under unique keys, the parameters of the
    request it sends hold neither a nested mapping nor a boolean. *)
Theorem run_call_params_flat (self : Client) (c : call) (w : world)
    (rq : request) :
  NoDup (dict_keys (call_params c)) →
  Forall (λ kv, one_level kv.2 = true) (call_params c) →
  rq ∈ sent (run_call py_repr self c w).2 →
  rq ∈ sent w ∨ Forall (λ kv, flat kv.2 = true) (rq_params rq).
Proof.
  intros Hnd Hlevel. rewrite run_call_run. simpl. unfold req_outcome.
  destruct (encode_params (call_params c)) as [[[]|e] d'] eqn:Henc; simpl;
    [|by left].
  intros [Hin| ->%list_elem_of_singleton]%elem_of_app; [by left|right]. simpl.
  by eapply encode_params_one_level_flat.
Qed.

(** X10. An endpoint call whose mapping the encoder completes on and whose
    request the session answers: the result is what the response handling
    makes of the answer ([None] for the two delete methods), one request
    has been sent, with the encoded parameters, and the store has one new
    object, the encoded mapping. *)
Theorem run_call_answered (self : Client) (c : call) (w : world) (d' : dict)
    (r : response) :
  let rq := mk_request (py_upper (call_verb c))
              (_url self +:+ "/" +:+ py_lstrip "/" (call_page py_repr c)) d'
              (_auth self)
              [("Content-Type", "application/x-www-form-urlencoded");
               ("Stripe-Version", _version self)] in
  encode_params (call_params c) = (Ok (), d') →
  _session self rq = Ok r →
  run_call py_repr self c w
  = (call_result c <$> handle_response py_repr (call_verb c) r,
     mk_world (<[fresh (dom (heap w)) := d']> (heap w)) (sent w ++ [rq])).
Proof.
  intros rq Henc Hr. rewrite run_call_run. unfold req_outcome. rewrite Henc.
  simpl. fold rq. unfold req_url, req_headers. fold rq. by rewrite Hr.
Qed.

(** X11. An exception of the session leaves the endpoint call as it is:
    nothing wraps or retries it. *)
Theorem run_call_session_raises (self : Client) (c : call) (w : world)
    (e : exn) :
  (encode_params (call_params c)).1 = Ok () →
  (∀ rq, _session self rq = Raise e) →
  (run_call py_repr self c w).1 = Raise e ∧
  length (sent (run_call py_repr self c w).2) = S (length (sent w)).
Proof.
  intros Henc Hr. rewrite run_call_run. unfold req_outcome.
  destruct (encode_params (call_params c)) as [[[]|e'] d']; [|done]. simpl.
  rewrite Hr. split; [done|]. rewrite length_app. simpl. lia.
Qed.

End request_properties.

Lemma req_sends_witness :
  sent (_req opaque_repr demo_client "post" "/charges" (Some 0%nat)
          (mk_world {[0%nat := [("tf", VBool true)]]} [])).2
  = [mk_request "POST" "https://api.stripe.com/v1/charges"
       [("tf", VStr "true")] ("secret_key", "")
       [("Content-Type", "application/x-www-form-urlencoded");
        ("Stripe-Version", "2017-02-14")]].
Proof.
  exact (proj1 (req_sends opaque_repr demo_client "post" "/charges" 0%nat
                  (mk_world {[0%nat := [("tf", VBool true)]]} [])
                  [("tf", VBool true)] (lookup_singleton_eq _ _)) eq_refl).
Defined.

Lemma run_call_params_flat_witness :
  Forall (λ kv, flat kv.2 = true)
    [("source", VStr "tok_1"); ("metadata[order]", VStr "7")].
Proof.
  destruct (run_call_params_flat opaque_repr demo_client
              (CreateCard (VStr "cus_1") (VStr "tok_1")
                 (VDict [("order", VStr "7")]))
              (mk_world ∅ [])
              (mk_request "POST" "https://api.stripe.com/v1/customers/cus_1/sources"
                 [("source", VStr "tok_1"); ("metadata[order]", VStr "7")]
                 ("secret_key", "")
                 [("Content-Type", "application/x-www-form-urlencoded");
                  ("Stripe-Version", "2017-02-14")]))
    as [Hin|Hflat].
  - apply (bool_decide_unpack _). vm_compute. exact I.
  - apply (bool_decide_unpack _). vm_compute. exact I.
  - vm_compute. left.
  - by apply elem_of_nil in Hin.
  - exact Hflat.
Defined.

Lemma run_call_answered_witness :
  (run_call opaque_repr demo_client (DeleteCard (VStr "cus_1") (VStr "card_1"))
     (mk_world ∅ [])).1
  = Raise (DeletionError "Failed to delete ch_1").
Proof.
  by rewrite (run_call_answered opaque_repr demo_client
                (DeleteCard (VStr "cus_1") (VStr "card_1")) (mk_world ∅ []) []
                (json_response 200
                   (VDict [("id", VStr "ch_1"); ("object", VStr "charge")]))
                eq_refl eq_refl).
Defined.

Lemma run_call_session_raises_witness :
  (run_call opaque_repr offline_client (RetrieveCharge (VStr "ch_1"))
     (mk_world ∅ [])).1
  = Raise (TransportError "Cannot connect to host api.stripe.com:443").
Proof.
  apply (run_call_session_raises opaque_repr offline_client
           (RetrieveCharge (VStr "ch_1")) (mk_world ∅ [])); [reflexivity|done].
Defined.

(** ** More on the response handling *)

Section response_outcomes.
Variable py_repr : value → string.

(** X12. [_req] returns a value only for a status 200: for DELETE the value
    is [None], for any other method it is the normalisation of the body. *)
Theorem handle_response_returns (method : string) (r : response) (v : value) :
  handle_response py_repr method r = Ok v →
  r_status r = 200 ∧
  (py_upper method = "DELETE" → v = VNone) ∧
  (py_upper method ≠ "DELETE" →
     ∃ body, read_body r = Ok body ∧ convert_json_response body = Ok v).
Proof.
  unfold handle_response.
  destruct (read_body r) as [body|e]; [|done]. simpl.
  destruct (r_status r =? 200) eqn:Hst; simpl.
  - apply Z.eqb_eq in Hst.
    destruct (String.eqb_spec (py_upper method) "DELETE") as [Hm|Hm].
    + destruct (py_get body "deleted" (VBool false)) as [deleted|]; [|done]. simpl.
      destruct (py_truthy deleted); simpl.
      * by intros [= <-].
      * by destruct (py_get body "id" VNone).
    + destruct (py_contains body "object") as [[]|]; simpl; [|done|done].
      intros Hv. split; [done|]. split; [done|]. by exists body.
  - by destruct (StripeError_init py_repr (r_status r) body).
Qed.

(** X13. A DELETE answered by a 200 with a mapping body succeeds on any
    true value under ['deleted'] (a non-empty string or a non-zero number
    as much as [True]) and raises [DeletionError] on any false one
    ([False], [0], [''], [None], an empty container) or when there is
    none. *)
Theorem delete_response_truth (method : string) (r : response) (body : dict) :
  py_upper method = "DELETE" → r_status r = 200 →
  read_body r = Ok (VDict body) →
  handle_response py_repr method r
  = if py_truthy (dict_get_default body "deleted" (VBool false)) then Ok VNone
    else Raise (DeletionError
                  ("Failed to delete "
                   +:+ py_str py_repr (dict_get_default body "id" VNone))).
Proof.
  intros Hm Hst Hbody. unfold handle_response. rewrite Hbody, Hst, Hm. simpl.
  destruct (py_truthy _); simpl; [done|]. by rewrite string_app_nil_r.
Qed.

Lemma blank_summary (status : Z) :
  StripeError_init py_repr status VNone
  = Ok (mk_stripe_error VNone VNone VNone VNone VNone VNone status
          (py_str py_repr (VInt status) +:+ ":")).
Proof. reflexivity. Qed.

(** X14. A status other than 200 with a body that is not a mapping (the
    bytes of a page that is not JSON, a JSON array), or a mapping with no
    ['error'] entry or a false one: the [StripeError] has [None] in its six
    attributes and its message is the status and a colon. *)
Theorem handle_response_no_error_entry (method : string) (r : response)
    (body : value) :
  r_status r ≠ 200 → read_body r = Ok body →
  match body with
  | VDict b => py_truthy (dict_get_default b "error" (VDict [])) = false
  | _ => True
  end →
  handle_response py_repr method r
  = Raise (StripeError
             (mk_stripe_error VNone VNone VNone VNone VNone VNone (r_status r)
                (py_str py_repr (VInt (r_status r)) +:+ ":"))).
Proof.
  intros Hst%Z.eqb_neq Hbody Herr. unfold handle_response.
  rewrite Hbody, Hst. simpl.
  assert (StripeError_init py_repr (r_status r) body
          = StripeError_init py_repr (r_status r) VNone) as ->.
  { unfold StripeError_init, stripe_error_fields.
    destruct body; try done. by rewrite Herr. }
  by rewrite blank_summary.
Qed.

(** X15. A status other than 200 whose body has a non-empty mapping under
    ['error']: the [StripeError] carries the status, and each of its six
    attributes is the entry of its name in that mapping, or [''] when the
    mapping has none. *)
Theorem handle_response_error_mapping (method : string) (r : response)
    (b err : dict) :
  r_status r ≠ 200 → read_body r = Ok (VDict b) →
  dict_get b "error" = Some (VDict err) → err ≠ [] →
  ∃ summary,
    handle_response py_repr method r
    = Raise (StripeError
               (mk_stripe_error
                  (dict_get_default err "type" (VStr ""))
                  (dict_get_default err "charge" (VStr ""))
                  (dict_get_default err "message" (VStr ""))
                  (dict_get_default err "code" (VStr ""))
                  (dict_get_default err "decline_code" (VStr ""))
                  (dict_get_default err "param" (VStr ""))
                  (r_status r) summary)).
Proof.
  intros Hst Hbody Herr Hne.
  exact (handle_response_not_200 py_repr method r (VDict b) _ Hbody Hst
           (stripe_error_fields_mapping (r_status r) b err Herr Hne)).
Qed.

(** X16. A 200 whose [Content-Type] does not start with
    [application/json] (or is missing) never gives a result: the body is
    the raw bytes, on which a DELETE raises the [AttributeError] of
    [body.get] and any other method the [TypeError] of
    ['object' not in body]. *)
Theorem handle_response_not_json (method : string) (r : response) :
  r_status r = 200 →
  py_startswith (default "" (r_content_type r)) "application/json" = false →
  handle_response py_repr method r
  = if String.eqb (py_upper method) "DELETE"
    then Raise (AttributeError "get")
    else Raise (TypeError "a bytes-like object is required, not 'str'").
Proof.
  intros Hst Hct. unfold handle_response, read_body. rewrite Hct, Hst. simpl.
  by destruct (String.eqb _ _).
Qed.

(** X17. Once the body has been read, these are the only exceptions that
    leave the response handling: [StripeError] (for a status other than
    200), [DeletionError] (for DELETE), [ParseError] (for the other
    methods), the [AttributeError] of a [.get] on something that is not a
    mapping, a [TypeError], and the [KeyError] of a list envelope without
    ['data']. *)
Theorem handle_response_raises (method : string) (r : response) (body : value)
    (e : exn) :
  read_body r = Ok body →
  handle_response py_repr method r = Raise e →
  (∃ se, e = StripeError se ∧ r_status r ≠ 200) ∨
  (∃ msg, e = DeletionError msg ∧ py_upper method = "DELETE") ∨
  (∃ msg, e = ParseError msg ∧ py_upper method ≠ "DELETE") ∨
  e = AttributeError "get" ∨
  (∃ msg, e = TypeError msg) ∨
  e = KeyError "data".
Proof.
  intros Hbody. unfold handle_response. rewrite Hbody. simpl.
  destruct (r_status r =? 200) eqn:Hst; simpl.
  - destruct (String.eqb_spec (py_upper method) "DELETE") as [Hm|Hm].
    + destruct (py_get body "deleted" (VBool false)) as [deleted|e0] eqn:Hd; simpl.
      * destruct (py_truthy deleted); simpl; [done|].
        destruct (py_get body "id" VNone) as [id|e1] eqn:Hid; simpl.
        -- intros [= <-]. right. left. by eexists.
        -- apply py_get_raises in Hid as ->. intros [= <-]. tauto.
      * apply py_get_raises in Hd as ->. intros [= <-]. tauto.
    + destruct (py_contains body "object") as [[]|e0] eqn:Hc; simpl.
      * intros [->| ->]%convert_json_response_raises.
        -- tauto.
        -- right. right. right. right. left. by eexists.
      * intros [= <-]. right. right. left. by eexists.
      * apply py_contains_raises in Hc as [msg ->]. intros [= <-].
        right. right. right. right. left. by eexists.
  - destruct (StripeError_init py_repr (r_status r) body) as [se|e0] eqn:Hinit;
      simpl.
    + intros [= <-]. left. exists se. split; [done|]. by apply Z.eqb_neq.
    + apply StripeError_init_raises in Hinit as ->. intros [= <-]. tauto.
Qed.

End response_outcomes.

Lemma handle_response_returns_witness :
  200 = 200 ∧
  (py_upper "get" = "DELETE" → VDict [("object", VStr "charge")] = VNone) ∧
  (py_upper "get" ≠ "DELETE" →
     ∃ body, read_body (json_response 200 (VDict [("object", VStr "charge")]))
             = Ok body ∧
             convert_json_response body = Ok (VDict [("object", VStr "charge")])).
Proof.
  exact (handle_response_returns opaque_repr "get"
           (json_response 200 (VDict [("object", VStr "charge")]))
           (VDict [("object", VStr "charge")]) eq_refl).
Defined.

Lemma delete_response_truth_witness :
  handle_response opaque_repr "delete"
    (json_response 200 (VDict [("deleted", VStr "false"); ("id", VStr "cus_X")]))
  = Ok VNone ∧
  handle_response opaque_repr "delete"
    (json_response 200 (VDict [("deleted", VInt 0)]))
  = Raise (DeletionError "Failed to delete None").
Proof.
  split.
  - exact (delete_response_truth opaque_repr "delete"
             (json_response 200
                (VDict [("deleted", VStr "false"); ("id", VStr "cus_X")]))
             [("deleted", VStr "false"); ("id", VStr "cus_X")]
             eq_refl eq_refl eq_refl).
  - exact (delete_response_truth opaque_repr "delete"
             (json_response 200 (VDict [("deleted", VInt 0)]))
             [("deleted", VInt 0)] eq_refl eq_refl eq_refl).
Defined.

Lemma handle_response_no_error_entry_witness :
  handle_response opaque_repr "get"
    (raw_response 502 "text/html" "<html>Bad Gateway</html>")
  = Raise (StripeError
             (mk_stripe_error VNone VNone VNone VNone VNone VNone 502 "502:")).
Proof.
  apply (handle_response_no_error_entry opaque_repr "get"
           (raw_response 502 "text/html" "<html>Bad Gateway</html>")
           (VBytes "<html>Bad Gateway</html>")); done.
Defined.

Lemma handle_response_error_mapping_witness :
  ∃ summary,
    handle_response opaque_repr "post" (json_response 404 error_body)
    = Raise (StripeError
               (mk_stripe_error (VStr "invalid_request_error") (VStr "")
                  (VStr "msg") (VStr "missing") (VStr "") (VStr "source")
                  404 summary)).
Proof.
  apply (handle_response_error_mapping opaque_repr "post"
           (json_response 404 error_body)
           [("error", VDict [("type", VStr "invalid_request_error");
                             ("message", VStr "msg");
                             ("param", VStr "source");
                             ("code", VStr "missing")])]
           [("type", VStr "invalid_request_error"); ("message", VStr "msg");
            ("param", VStr "source"); ("code", VStr "missing")]); done.
Defined.

Lemma handle_response_not_json_witness :
  handle_response opaque_repr "delete" (raw_response 200 "text/plain" "ok")
  = Raise (AttributeError "get").
Proof.
  exact (handle_response_not_json opaque_repr "delete"
           (raw_response 200 "text/plain" "ok") eq_refl eq_refl).
Defined.

Lemma handle_response_raises_witness :
  (∃ se, ParseError ("Stripe response missing " +:+ dquote +:+ "object"
                     +:+ dquote +:+ ": <repr>") = StripeError se ∧ 200 ≠ 200) ∨
  (∃ msg, ParseError ("Stripe response missing " +:+ dquote +:+ "object"
                      +:+ dquote +:+ ": <repr>") = DeletionError msg ∧
          py_upper "get" = "DELETE") ∨
  (∃ msg, ParseError ("Stripe response missing " +:+ dquote +:+ "object"
                      +:+ dquote +:+ ": <repr>") = ParseError msg ∧
          py_upper "get" ≠ "DELETE") ∨
  ParseError ("Stripe response missing " +:+ dquote +:+ "object"
              +:+ dquote +:+ ": <repr>") = AttributeError "get" ∨
  (∃ msg, ParseError ("Stripe response missing " +:+ dquote +:+ "object"
                      +:+ dquote +:+ ": <repr>") = TypeError msg) ∨
  ParseError ("Stripe response missing " +:+ dquote +:+ "object"
              +:+ dquote +:+ ": <repr>") = KeyError "data".
Proof.
  exact (handle_response_raises opaque_repr "get"
           (json_response 200 (VDict [("amount", VInt 103)]))
           (VDict [("amount", VInt 103)]) _ eq_refl eq_refl).
Defined.

(** X18. The message of a [StripeError] is the status and a colon, then,
    for each of type, charge, message, code and param that is set and
    true, its labelled text, in that order: [" <type>:"],
    [" charge: <charge>"], the message in double quotes after
    [" message: "], [" code: <code>"], [" param: <param>"]. *)
Theorem stripe_error_message (py_repr : value → string) (status : Z)
    (body : value) (e : stripe_error) :
  StripeError_init py_repr status body = Ok e →
  se_summary e
  = py_str py_repr (VInt status) +:+ ":"
    +:+ shown py_repr " " (se_type e) ":"
    +:+ shown py_repr " charge: " (se_charge e) ""
    +:+ shown py_repr (" message: " +:+ dquote) (se_message e) dquote
    +:+ shown py_repr " code: " (se_code e) ""
    +:+ shown py_repr " param: " (se_param e) "".
Proof. exact (StripeError_summary py_repr status body e). Qed.

Lemma stripe_error_message_witness :
  "404: invalid_request_error: message: " +:+ dquote +:+ "msg" +:+ dquote
  +:+ " code: missing param: source"
  = "404" +:+ ":"
    +:+ shown opaque_repr " " (VStr "invalid_request_error") ":"
    +:+ shown opaque_repr " charge: " (VStr "") ""
    +:+ shown opaque_repr (" message: " +:+ dquote) (VStr "msg") dquote
    +:+ shown opaque_repr " code: " (VStr "missing") ""
    +:+ shown opaque_repr " param: " (VStr "source") "".
Proof.
  exact (stripe_error_message opaque_repr 404 error_body
           (mk_stripe_error (VStr "invalid_request_error") (VStr "")
              (VStr "msg") (VStr "missing") (VStr "") (VStr "source") 404
              ("404: invalid_request_error: message: " +:+ dquote +:+ "msg"
               +:+ dquote +:+ " code: missing param: source"))
           eq_refl).
Defined.

(** X19. A 200 with a mapping body, on a method other than DELETE: when
    the mapping has no ['object'] key the result is a [ParseError] whose
    message ends with the [repr] of the body, and when it has one the
    result is the normalisation of the body, whatever is under
    ['object']. *)
Theorem mapping_body_outcome (py_repr : value → string) (method : string)
    (r : response) (body : dict) :
  py_upper method ≠ "DELETE" → r_status r = 200 →
  read_body r = Ok (VDict body) →
  handle_response py_repr method r
  = if dict_mem body "object" then convert_json_response (VDict body)
    else Raise (ParseError ("Stripe response missing " +:+ dquote +:+ "object"
                            +:+ dquote +:+ ": " +:+ py_repr (VDict body))).
Proof. exact (mapping_body_response py_repr method r body). Qed.

Lemma mapping_body_outcome_witness :
  handle_response opaque_repr "get"
    (json_response 200 (VDict [("amount", VInt 103)]))
  = Raise (ParseError ("Stripe response missing " +:+ dquote +:+ "object"
                       +:+ dquote +:+ ": <repr>")).
Proof.
  apply (mapping_body_outcome opaque_repr "get"
           (json_response 200 (VDict [("amount", VInt 103)]))
           [("amount", VInt 103)]); done.
Defined.

(** ** More on [convert_json_response] *)

Lemma map_result_Forall2 {A B} (f : A → result B) (l : list A) (ys : list B) :
  map_result f l = Ok ys ↔ Forall2 (λ x y, f x = Ok y) l ys.
Proof.
  split.
  - revert ys. induction l as [|x l IH]; intros ys; simpl.
    + intros [= <-]. constructor.
    + destruct (f x) as [y|e] eqn:Hx; simpl; [|done].
      destruct (map_result f l) as [ys'|e] eqn:Hl; simpl; [|done].
      intros [= <-]. constructor; [done|]. by apply IH.
  - induction 1 as [|x y l ys Hxy _ IH]; simpl; [done|].
    by rewrite Hxy, IH.
Qed.

Lemma plain_normal (v : value) : plain v = true → normal v = true.
Proof. by destruct v. Qed.

Lemma normal_list (l : list value) :
  normal (VList l) = true ↔ Forall (λ x, normal x = true) l.
Proof.
  simpl. induction l as [|x l IH]; [by split|].
  rewrite andb_true_iff, Forall_cons, IH. done.
Qed.

Lemma convert_json_response_normal_result (v w : value) :
  convert_json_response v = Ok w → normal w = true.
Proof.
  revert w. induction v as [| | | | | |l IH|d IH] using value_ind';
    try by intros w [= <-].
  - intros w. rewrite convert_json_response_list.
    destruct (map_result convert_json_response l) as [ys|] eqn:Hl; [|done].
    simpl. intros [= <-]. apply normal_list.
    apply map_result_Forall2 in Hl. clear -IH Hl.
    induction Hl as [|x y l ys Hxy _ IHl]; [constructor|].
    apply Forall_cons in IH as [Hx IH]. constructor; [by apply Hx|by apply IHl].
  - intros w. rewrite convert_json_response_dict.
    destruct (is_list_envelope d) eqn:Henv; [|intros [= <-]; simpl; by rewrite Henv].
    unfold py_getitem.
    destruct (dict_get d "data") as [data|] eqn:Hdata; [|done]. simpl.
    destruct (is_list data) eqn:Hlist.
    + destruct data as [| | | | | |l|]; try done. simpl.
      rewrite <- convert_json_response_list.
      exact (dict_get_Forall
               (λ v, ∀ w, convert_json_response v = Ok w → normal w = true)
               d "data" _ IH Hdata w).
    + destruct (py_iter data) as [items|] eqn:Hiter; [|done]. simpl.
      pose proof (py_iter_plain _ _ Hlist Hiter) as Hplain.
      rewrite map_result_id
        by (eapply Forall_impl; [exact Hplain|]; intros x; apply plain_convert).
      simpl. intros [= <-]. apply normal_list.
      eapply Forall_impl; [exact Hplain|]. intros x. apply plain_normal.
Qed.

(** X20. What [convert_json_response] returns is never a list envelope,
    nor a list with one in it at any depth of lists: every envelope the
    normalisation can reach has been replaced by the list of its items. *)
Theorem convert_json_response_normal (v w : value) :
  convert_json_response v = Ok w → normal w = true.
Proof. exact (convert_json_response_normal_result v w). Qed.

Lemma convert_json_response_normal_witness :
  normal (VList [VDict [("object", VStr "charge")]; VList [VInt 1]]) = true.
Proof.
  exact (convert_json_response_normal
           (VDict [("object", VStr "list");
                   ("data", VList [VDict [("object", VStr "charge")];
                                   VDict [("object", VStr "list");
                                          ("data", VList [VInt 1])]])])
           _ eq_refl).
Defined.

Lemma envelopes_listed_list (l : list value) :
  envelopes_listed (VList l) = true ↔ Forall (λ x, envelopes_listed x = true) l.
Proof.
  simpl. induction l as [|x l IH]; [by split|].
  rewrite andb_true_iff, Forall_cons, IH. done.
Qed.

Lemma envelopes_listed_dict (d : dict) :
  envelopes_listed (VDict d) = true →
  (is_list_envelope d = true → ∃ l, dict_get d "data" = Some (VList l)) ∧
  Forall (λ kv, envelopes_listed kv.2 = true) d.
Proof.
  simpl. intros [Himp Hall]%andb_true_iff. split.
  - intros Henv. rewrite Henv in Himp. simpl in Himp.
    destruct (dict_get d "data") as [[| | | | | |l|]|]; try done. by exists l.
  - clear Himp. induction d as [|kv d IH]; [constructor|].
    apply andb_true_iff in Hall as [? ?]. constructor; [done|by apply IH].
Qed.

(** X21. [convert_json_response] returns, without an exception, on every
    value in which each mapping tagged [object == 'list'] has a list under
    ['data']. *)
Theorem convert_json_response_total (v : value) :
  envelopes_listed v = true → ∃ w, convert_json_response v = Ok w.
Proof.
  induction v as [| | | | | |l IH|d IH] using value_ind'; try by eexists.
  - intros Hl%envelopes_listed_list. rewrite convert_json_response_list.
    assert (∃ ys, map_result convert_json_response l = Ok ys) as [ys ->].
    { induction l as [|x l IHl]; [by eexists|].
      apply Forall_cons in IH as [Hx IH]. apply Forall_cons in Hl as [Hlx Hl].
      destruct (Hx Hlx) as [y Hy]. destruct (IHl IH Hl) as [ys Hys].
      exists (y :: ys). simpl. by rewrite Hy, Hys. }
    by eexists.
  - intros [Hdata Hall]%envelopes_listed_dict.
    rewrite convert_json_response_dict.
    destruct (is_list_envelope d); [|by eexists].
    destruct Hdata as [l Hdata]; [done|].
    unfold py_getitem. rewrite Hdata. simpl.
    rewrite <- convert_json_response_list.
    apply (dict_get_Forall
             (λ v, envelopes_listed v = true → ∃ w, convert_json_response v = Ok w)
             d "data" _ IH Hdata).
    rewrite Forall_forall in Hall.
    exact (Hall _ (dict_get_elem _ _ _ Hdata)).
Qed.

Lemma convert_json_response_total_witness :
  ∃ w, convert_json_response
         (VDict [("object", VStr "list"); ("has_more", VBool false);
                 ("data", VList [VDict [("object", VStr "refund")]])])
       = Ok w.
Proof. apply convert_json_response_total. reflexivity. Defined.

(** X22. The list returned for a list envelope has one element for each
    element of ['data'], in the same order, each the normalisation of that
    element; the same holds of a list and its normalisation. *)
Theorem convert_json_response_elements (d : dict) (l : list value) (w : value) :
  is_list_envelope d = true → dict_get d "data" = Some (VList l) →
  convert_json_response (VDict d) = Ok w →
  ∃ ys, w = VList ys ∧
        Forall2 (λ x y, convert_json_response x = Ok y) l ys ∧
        length ys = length l ∧
        convert_json_response (VList l) = Ok w.
Proof.
  intros Henv Hdata. rewrite convert_json_response_dict, Henv.
  unfold py_getitem. rewrite Hdata. simpl.
  rewrite convert_json_response_list.
  destruct (map_result convert_json_response l) as [ys|] eqn:Hl; [|done].
  simpl. intros [= <-]. exists ys. apply map_result_Forall2 in Hl.
  split; [done|]. split; [done|]. split; [|done].
  symmetry. by eapply Forall2_length.
Qed.

Lemma convert_json_response_elements_witness :
  ∃ ys, VList [VDict [("object", VStr "charge")]] = VList ys ∧
        Forall2 (λ x y, convert_json_response x = Ok y)
          [VDict [("object", VStr "charge")]] ys ∧
        length ys = length [VDict [("object", VStr "charge")]] ∧
        convert_json_response (VList [VDict [("object", VStr "charge")]])
        = Ok (VList [VDict [("object", VStr "charge")]]).
Proof.
  exact (convert_json_response_elements
           [("object", VStr "list"); ("url", VStr "/v1/charges");
            ("data", VList [VDict [("object", VStr "charge")]])]
           [VDict [("object", VStr "charge")]] _ eq_refl eq_refl eq_refl).
Defined.

(** X23. [convert_json_response] raises nothing but the [KeyError] of a
    list envelope without ['data'] and the [TypeError] of a ['data'] that
    cannot be iterated. *)
Theorem convert_json_response_exceptions (v : value) (e : exn) :
  convert_json_response v = Raise e →
  e = KeyError "data" ∨ e = TypeError "object is not iterable".
Proof. exact (convert_json_response_raises v e). Qed.

Lemma convert_json_response_exceptions_witness :
  TypeError "object is not iterable" = KeyError "data" ∨
  TypeError "object is not iterable" = TypeError "object is not iterable".
Proof.
  exact (convert_json_response_exceptions
           (VList [VDict [("object", VStr "list"); ("data", VInt 3)]])
           _ eq_refl).
Defined.

(** ** [create_json_request] *)

Lemma create_json_request_list (l : list value) :
  create_json_request (VList l) = VList (map create_json_request l).
Proof. reflexivity. Qed.

Lemma create_json_request_dict (d : dict) :
  create_json_request (VDict d)
  = VDict (dict_of_items (map (λ kv, (kv.1, create_json_request kv.2)) d)).
Proof.
  simpl. do 2 f_equal. induction d as [|[k v] d IH]; simpl; [done|]. by rewrite IH.
Qed.

Lemma wf_value_list (l : list value) :
  wf_value (VList l) ↔ Forall wf_value l.
Proof.
  simpl. induction l as [|x l IH]; [by split|]. by rewrite Forall_cons, IH.
Qed.

Lemma wf_value_dict (d : dict) :
  wf_value (VDict d) ↔ NoDup (dict_keys d) ∧ Forall (λ kv, wf_value kv.2) d.
Proof.
  simpl. apply and_iff_compat_l.
  induction d as [|kv d IH]; [by split|]. by rewrite Forall_cons, IH.
Qed.

(** X24. [create_json_request] returns a value equal to its argument: the
    copy of a dict has the same entries in the same order, the copy of a
    list the same elements, at every depth. *)
Theorem create_json_request_id (v : value) :
  wf_value v → create_json_request v = v.
Proof.
  induction v as [| | | | | |l IH|d IH] using value_ind'; try done.
  - intros Hl%wf_value_list. rewrite create_json_request_list. f_equal.
    induction l as [|x l IHl]; [done|].
    apply Forall_cons in IH as [Hx IH]. apply Forall_cons in Hl as [Hlx Hl].
    simpl. by rewrite (Hx Hlx), (IHl IH Hl).
  - intros [Hnd Hd]%wf_value_dict. rewrite create_json_request_dict. f_equal.
    assert (map (λ kv : string * value, (kv.1, create_json_request kv.2)) d = d)
      as ->.
    { clear Hnd. induction d as [|[k v] d IHd]; [done|].
      apply Forall_cons in IH as [Hx IH]. apply Forall_cons in Hd as [Hdx Hd].
      simpl in *. by rewrite (Hx Hdx), (IHd IH Hd). }
    unfold dict_of_items. rewrite dict_update_fresh; [done|done|].
    intros n _. apply not_elem_of_nil.
Qed.

Lemma create_json_request_id_witness :
  create_json_request
    (VDict [("amount", VInt 103);
            ("metadata", VDict [("a", VStr "hi"); ("b", VList [VBool true])])])
  = VDict [("amount", VInt 103);
           ("metadata", VDict [("a", VStr "hi"); ("b", VList [VBool true])])].
Proof.
  apply create_json_request_id. simpl.
  repeat split; apply (bool_decide_unpack _); vm_compute; exact I.
Defined.

(** ** The mappings of [create_refund], [create_card] and [update_refund] *)

Lemma nested_name_inj (k a b : string) :
  nested_name k a = nested_name k b → a = b.
Proof.
  unfold nested_name. intros H%string_app_inj_l.
  rewrite !string_app_cons in H. injection H as H.
  by apply string_snoc_inj in H.
Qed.

Lemma nested_name_metadata (a : string) :
  nested_name "metadata" a ≠ "source" ∧ nested_name "metadata" a ≠ "metadata".
Proof. split; by destruct a. Qed.

Lemma collision_free_metadata (pre : dict) (md : dict) :
  (pre = [] ∨ ∃ source, pre = [("source", source)] ∧ is_dict source = false) →
  NoDup (dict_keys md) →
  collision_free (pre ++ [("metadata", VDict md)]) ∧
  List.filter (λ kv, negb (is_dict kv.2)) (pre ++ [("metadata", VDict md)]) = pre ∧
  synth (pre ++ [("metadata", VDict md)])
    (nested_keys (pre ++ [("metadata", VDict md)]))
  = renamed "metadata" md.
Proof.
  intros Hpre Hmd.
  assert (NoDup (dict_keys (renamed "metadata" md))) as Hnames.
  { rewrite dict_keys_renamed. apply (NoDup_fmap_2_strong (nested_name "metadata"));
      [|done]. intros a b _ _. apply nested_name_inj. }
  assert (∀ n, n ∈ dict_keys (renamed "metadata" md) →
               n ≠ "source" ∧ n ≠ "metadata") as Hfresh.
  { intros n. rewrite dict_keys_renamed.
    intros (a & -> & _)%list_elem_of_fmap. apply nested_name_metadata. }
  destruct Hpre as [->|(source & -> & Hs)].
  - split; [|split].
    + unfold collision_free, synth_names. simpl. rewrite app_nil_r.
      apply NoDup_cons. split; [|done]. intros Hin. by apply Hfresh in Hin as [_ ?].
    + done.
    + simpl. by rewrite app_nil_r.
  - assert (nested_keys [("source", source); ("metadata", VDict md)] = ["metadata"])
      as Hks by (unfold nested_keys; simpl; by rewrite Hs).
    split; [|split].
    + unfold collision_free, synth_names. simpl app. rewrite Hks. simpl.
      rewrite app_nil_r.
      apply NoDup_cons. split.
      * rewrite not_elem_of_cons. split; [done|].
        intros Hin. by apply Hfresh in Hin as [? _].
      * apply NoDup_cons. split; [|done].
        intros Hin. by apply Hfresh in Hin as [_ ?].
    + simpl. by rewrite Hs.
    + simpl app. rewrite Hks. simpl. by rewrite app_nil_r.
Qed.

Section endpoint_params.
Variable py_repr : value → string.

(** X25. [create_refund] sends the charge first and the keyword arguments
    after it, in their order; a keyword argument named [charge] takes the
    place of the charge id.  (Keyword arguments that are neither nested
    mappings nor booleans, so that the encoder leaves them as they are.) *)
Theorem create_refund_request (self : Client) (charge_id : value) (kwds : dict)
    (w : world) :
  flat charge_id = true → Forall (λ kv, flat kv.2 = true) kwds →
  sent (run_call py_repr self (CreateRefund charge_id kwds) w).2
  = sent w ++ [mk_request "POST" (_url self +:+ "/refunds")
                 (dict_update [("charge", charge_id)] kwds) (_auth self)
                 [("Content-Type", "application/x-www-form-urlencoded");
                  ("Stripe-Version", _version self)]] ∧
  dict_get (dict_update [("charge", charge_id)] kwds) "charge"
  = match dict_get (reverse kwds) "charge" with
    | Some v => Some v
    | None => Some charge_id
    end.
Proof.
  intros Hid Hkwds. split; [|by rewrite dict_get_update].
  rewrite run_call_run. simpl call_params. unfold req_outcome.
  rewrite encode_params_flat_id; [done|].
  apply Forall_forall. intros kv [Hin|Hin]%dict_update_elem.
  - by apply list_elem_of_singleton in Hin as ->.
  - rewrite Forall_forall in Hkwds. by apply Hkwds.
Qed.

(** X26. [create_card] with a [source] that is not a mapping and a mapping
    of metadata with unique keys sends [source], then one parameter
    [metadata[k]] for each entry of the metadata, in order; [update_refund]
    sends the [metadata[k]] parameters alone.  Booleans go as ["true"] and
    ["false"]. *)
Theorem metadata_requests (self : Client) (id source : value) (md : dict)
    (w : world) :
  is_dict source = false → NoDup (dict_keys md) →
  sent (run_call py_repr self (CreateCard id source (VDict md)) w).2
  = sent w ++ [mk_request "POST"
                 (_url self +:+ "/customers/" +:+ py_str py_repr id +:+ "/sources")
                 (("source", conv_bool source)
                  :: map conv_entry (renamed "metadata" md))
                 (_auth self)
                 [("Content-Type", "application/x-www-form-urlencoded");
                  ("Stripe-Version", _version self)]] ∧
  sent (run_call py_repr self (UpdateRefund id (VDict md)) w).2
  = sent w ++ [mk_request "POST"
                 (_url self +:+ "/refunds/" +:+ py_str py_repr id)
                 (map conv_entry (renamed "metadata" md))
                 (_auth self)
                 [("Content-Type", "application/x-www-form-urlencoded");
                  ("Stripe-Version", _version self)]].
Proof.
  intros Hs Hmd. split.
  - destruct (collision_free_metadata [("source", source)] md) as (Hfree & Hpre & Hsy);
      [right; by exists source|done|].
    rewrite run_call_run. simpl call_params. unfold req_outcome.
    simpl app in *. rewrite (encode_params_list _ Hfree), Hpre, Hsy. done.
  - destruct (collision_free_metadata [] md) as (Hfree & Hpre & Hsy);
      [by left|done|].
    rewrite run_call_run. simpl call_params. unfold req_outcome.
    simpl app in *. rewrite (encode_params_list _ Hfree), Hpre, Hsy. done.
Qed.

End endpoint_params.

Lemma create_refund_request_witness :
  sent (run_call opaque_repr demo_client
          (CreateRefund (VStr "ch_1") [("amount", VInt 50); ("charge", VStr "ch_2")])
          (mk_world ∅ [])).2
  = [mk_request "POST" "https://api.stripe.com/v1/refunds"
       [("charge", VStr "ch_2"); ("amount", VInt 50)] ("secret_key", "")
       [("Content-Type", "application/x-www-form-urlencoded");
        ("Stripe-Version", "2017-02-14")]].
Proof.
  apply (create_refund_request opaque_repr demo_client (VStr "ch_1")
           [("amount", VInt 50); ("charge", VStr "ch_2")] (mk_world ∅ []));
    [reflexivity|by repeat constructor].
Defined.

Lemma metadata_requests_witness :
  sent (run_call opaque_repr demo_client
          (CreateCard (VStr "cus_1") (VStr "tok_1")
             (VDict [("order", VStr "7"); ("gift", VBool false)]))
          (mk_world ∅ [])).2
  = [mk_request "POST" "https://api.stripe.com/v1/customers/cus_1/sources"
       [("source", VStr "tok_1"); ("metadata[order]", VStr "7");
        ("metadata[gift]", VStr "false")]
       ("secret_key", "")
       [("Content-Type", "application/x-www-form-urlencoded");
        ("Stripe-Version", "2017-02-14")]].
Proof.
  assert (NoDup (dict_keys [("order", VStr "7"); ("gift", VBool false)])) as Hnd.
  { apply (bool_decide_unpack _). vm_compute. exact I. }
  pose proof (metadata_requests opaque_repr demo_client (VStr "cus_1")
                (VStr "tok_1") [("order", VStr "7"); ("gift", VBool false)]
                (mk_world ∅ []) eq_refl Hnd) as [H _].
  exact H.
Defined.
